(** * Task board: the REST handlers and the optimistic client view

    A shallow embedding of the task-board repository:
    - [app/api/tasks/route.ts] and [app/api/tasks/[id]/route.ts]
      (POST, GET, PATCH, DELETE on tasks),
    - [app/api/boards/route.ts] and [app/api/boards/[id]/route.ts]
      (POST, DELETE on boards),
    - the two tables of [prisma/migrations/.../migration.sql], with the
      primary keys and the cascading foreign key,
    - the optimistic handlers of the board detail page and of the dashboard.

    Request bodies are JSON, so every destructured field is an arbitrary
    JavaScript value.  The database is a pair of finite maps keyed by the
    primary key; every call into the ORM is logged, so that statements
    about "before any store call" can be made. *)

From Stdlib Require Import ZArith String Ascii List Sorted Permutation Lia.
From stdpp Require Import base option list gmap strings sorting.

Local Open Scope string_scope.
Local Open Scope Z_scope.

(** ** JavaScript values *)

Module JS.

(** What [request.json()] can put in a destructured field.  [JUndefined] is
    an absent key.  Numbers are kept as integers (only their being zero is
    ever inspected).  [JSet v] is the object [{ set: v }], the one shape of
    object the ORM reads in an update; [JObj] stands for any other object
    or array. *)
Inductive jsval : Type :=
| JUndefined
| JNull
| JBool (b : bool)
| JNum (n : Z)
| JStr (s : string)
| JObj
| JSet (v : jsval).

#[global] Instance jsval_eq_dec : EqDecision jsval.
Proof. solve_decision. Defined.

(** [ToBoolean]: what [!v] and [v && ...] and [v ? a : b] test. *)
Definition truthy (v : jsval) : bool :=
  match v with
  | JUndefined | JNull => false
  | JBool b => b
  | JNum n => negb (n =? 0)
  | JStr s => negb (String.eqb s "")
  | JObj | JSet _ => true
  end.

(** [v ?? d] *)
Definition nullish_or (v d : jsval) : jsval :=
  match v with
  | JUndefined | JNull => d
  | _ => v
  end.

(** [arr.includes(v)] for an array of string literals. *)
Definition includes (arr : list string) (v : jsval) : bool :=
  match v with
  | JStr s => bool_decide (s ∈ arr)
  | _ => false
  end.

(** [typeof v !== 'string'] *)
Definition not_a_string (v : jsval) : bool :=
  match v with
  | JStr _ => false
  | _ => true
  end.

(** White space and line terminators of [String.prototype.trim], among the
    code units a [string] of this development holds (0 to 255): TAB, LF,
    VT, FF, CR, SP and NBSP. *)
Definition is_ws (c : ascii) : bool :=
  let n := N_of_ascii c in
  ((9 <=? n) && (n <=? 13) || (n =? 32) || (n =? 160))%N.

Fixpoint trimStart (s : string) : string :=
  match s with
  | EmptyString => EmptyString
  | String c s' => if is_ws c then trimStart s' else s
  end.

Fixpoint trimEnd (s : string) : string :=
  match s with
  | EmptyString => EmptyString
  | String c s' =>
      match trimEnd s' with
      | EmptyString => if is_ws c then EmptyString else String c EmptyString
      | r => String c r
      end
  end.

(** [s.trim()] *)
Definition trim (s : string) : string := trimEnd (trimStart s).

(** Every code unit of [s] is white space. *)
Fixpoint all_ws (s : string) : bool :=
  match s with
  | EmptyString => true
  | String c s' => is_ws c && all_ws s'
  end.

Definition first_char (s : string) : option ascii :=
  match s with
  | EmptyString => None
  | String c _ => Some c
  end.

Fixpoint last_char (s : string) : option ascii :=
  match s with
  | EmptyString => None
  | String c EmptyString => Some c
  | String _ s' => last_char s'
  end.

End JS.
Export JS.

(** ** The two tables *)

(** [Board] of [types/index.ts] and of the migration. *)
Record Board : Type := mkBoard {
  board_id : string;
  board_name : string;
  board_description : option string;
  board_color : option string;
  board_createdAt : Z;
  board_updatedAt : Z
}.

(** [Task] of [types/index.ts] and of the migration.  The status and the
    priority are TEXT columns: the table itself holds any string.

    Modelled from the spec: [task_order], the [order] column that
    [GET /api/tasks] sorts by (the "explicit sequence field");
    [prisma/schema.prisma], which declares it, is not among the sources. *)
Record Task : Type := mkTask {
  task_id : string;
  task_title : string;
  task_description : option string;
  task_status : string;
  task_priority : option string;
  task_assignedTo : option string;
  task_dueDate : option Z;
  task_createdAt : Z;
  task_updatedAt : Z;
  task_boardId : string;
  task_order : Z
}.

#[global] Instance Board_eq_dec : EqDecision Board.
Proof. solve_decision. Defined.
#[global] Instance Task_eq_dec : EqDecision Task.
Proof. solve_decision. Defined.

Record Db : Type := mkDb {
  boards : gmap string Board;
  tasks : gmap string Task
}.

Definition empty_db : Db := mkDb ∅ ∅.

(** ** The ORM calls, logged *)

Inductive StoreCall : Type :=
| board_findUnique_call (id : jsval)
| board_create_call
| board_delete_call (id : string)
| task_findUnique_call (id : string)
| task_findMany_call (boardId : string)
| task_create_call
| task_update_call (id : string)
| task_delete_call (id : string).

Definition is_write (c : StoreCall) : bool :=
  match c with
  | board_create_call | board_delete_call _
  | task_create_call | task_update_call _ | task_delete_call _ => true
  | _ => false
  end.

Record World : Type := mkWorld {
  db : Db;
  calls : list StoreCall
}.

Definition fresh_world (d : Db) : World := mkWorld d [].

(** What the server cannot choose: the clock, the identifier the database
    generates for a new row, the time stamp a [new Date(v)] comes to in a
    TIMESTAMP(3) column ([None] when it is an Invalid Date or a date
    outside what the column holds: the ORM call throws on either), and the
    default of the [order] column. *)
Record Env : Type := mkEnv {
  env_now : Z;
  env_newId : string;
  env_newDate : jsval → option Z;
  env_order_default : Z
}.

(** A computation that may throw (every handler body sits in a [try]). *)
Inductive Outcome (A : Type) : Type :=
| Ret (a : A)
| Throw.
Arguments Ret {A} a.
Arguments Throw {A}.

Definition M (A : Type) : Type := World → Outcome A * World.

#[global] Instance M_ret : MRet M := λ A a w, (Ret a, w).
#[global] Instance M_bind : MBind M := λ A B k m w,
  match m w with
  | (Ret a, w') => k a w'
  | (Throw, w') => (Throw, w')
  end.

Definition throw {A} : M A := λ w, (Throw, w).
Definition log (c : StoreCall) : M unit :=
  λ w, (Ret tt, mkWorld (db w) (calls w ++ [c])%list).
Definition get_db : M Db := λ w, (Ret (db w), w).
Definition put_db (d : Db) : M unit := λ w, (Ret tt, mkWorld d (calls w)).

(** ** The ORM over the two tables *)

Module Prisma.

(** A [Date] object handed to the ORM, or [null]; [DateObj None] is a
    date that cannot be stored. *)
Inductive DateArg : Type :=
| DateNull
| DateObj (t : option Z).

(** The run-time type check of the generated client: a [String] column
    takes a string, a [String?] column a string or [null], a [DateTime?]
    column a storable date or [null]; anything else throws.  The text
    itself is not inspected: the database refuses one that holds U+0000,
    so what is proved of a write that succeeds is about texts without
    it. *)
Definition as_String (v : jsval) : option string :=
  match v with
  | JStr s => Some s
  | _ => None
  end.

Definition as_String_opt (v : jsval) : option (option string) :=
  match v with
  | JStr s => Some (Some s)
  | JNull => Some None
  | _ => None
  end.

(** In the [data] of an update a column also takes [{ set: v }], with [v]
    of the type of the column. *)
Definition as_String_set (v : jsval) : option string :=
  match v with
  | JStr s | JSet (JStr s) => Some s
  | _ => None
  end.

Definition as_String_opt_set (v : jsval) : option (option string) :=
  match v with
  | JStr s | JSet (JStr s) => Some (Some s)
  | JNull | JSet JNull => Some None
  | _ => None
  end.

Definition as_DateTime_opt (d : DateArg) : option (option Z) :=
  match d with
  | DateNull => Some None
  | DateObj (Some t) => Some (Some t)
  | DateObj None => None
  end.

Record TaskCreateInput : Type := mkTaskCreateInput {
  tc_boardId : jsval;
  tc_title : jsval;
  tc_description : jsval;
  tc_status : jsval;
  tc_priority : jsval;
  tc_assignedTo : jsval;
  tc_dueDate : DateArg
}.

(** The [updateData] object of PATCH: [None] is a key that was never set. *)
Record TaskUpdateInput : Type := mkTaskUpdateInput {
  tu_title : option jsval;
  tu_description : option jsval;
  tu_status : option jsval;
  tu_priority : option jsval;
  tu_assignedTo : option jsval;
  tu_dueDate : option DateArg
}.

Record BoardCreateInput : Type := mkBoardCreateInput {
  bc_name : jsval;
  bc_description : jsval;
  bc_color : jsval
}.

(** The row an INSERT into "Task" builds: the generated id, both
    timestamps at the clock, the column default for [order]. *)
Definition task_of_create (e : Env) (d : TaskCreateInput) : option Task :=
  boardId ← as_String (tc_boardId d);
  title ← as_String (tc_title d);
  description ← as_String_opt (tc_description d);
  status ← as_String (tc_status d);
  priority ← as_String_opt (tc_priority d);
  assignedTo ← as_String_opt (tc_assignedTo d);
  dueDate ← as_DateTime_opt (tc_dueDate d);
  Some (mkTask (env_newId e) title description status priority assignedTo
          dueDate (env_now e) (env_now e) boardId (env_order_default e)).

Definition board_of_create (e : Env) (d : BoardCreateInput) : option Board :=
  name ← as_String (bc_name d);
  description ← as_String_opt (bc_description d);
  color ← as_String_opt (bc_color d);
  Some (mkBoard (env_newId e) name description color (env_now e) (env_now e)).

(** A column of an UPDATE: kept when the key is absent. *)
Definition column {A B} (old : A) (new : option B) (check : B → option A)
  : option A :=
  match new with
  | None => Some old
  | Some v => check v
  end.

(** A [data] object without any key. *)
Definition tu_empty (d : TaskUpdateInput) : bool :=
  match tu_title d, tu_description d, tu_status d, tu_priority d,
        tu_assignedTo d, tu_dueDate d with
  | None, None, None, None, None, None => true
  | _, _, _, _, _, _ => false
  end.

(** The row an UPDATE of "Task" leaves; [updatedAt] is the [@updatedAt]
    column, written with every column that is written: with no key in
    [data] nothing is written and the row stays as it is. *)
Definition task_of_update (now : Z) (t : Task) (d : TaskUpdateInput)
  : option Task :=
  title ← column (task_title t) (tu_title d) as_String_set;
  description ← column (task_description t) (tu_description d)
                  as_String_opt_set;
  status ← column (task_status t) (tu_status d) as_String_set;
  priority ← column (task_priority t) (tu_priority d) as_String_opt_set;
  assignedTo ← column (task_assignedTo t) (tu_assignedTo d) as_String_opt_set;
  dueDate ← column (task_dueDate t) (tu_dueDate d) as_DateTime_opt;
  Some (mkTask (task_id t) title description status priority assignedTo
          dueDate (task_createdAt t)
          (if tu_empty d then task_updatedAt t else now)
          (task_boardId t) (task_order t)).

(** [prisma.board.findUnique({ where: { id } })] *)
Definition board_findUnique (id : jsval) : M (option Board) :=
  log (board_findUnique_call id);;
  match id with
  | JStr s => d ← get_db; mret (boards d !! s)
  | _ => throw
  end.

(** [prisma.task.findUnique({ where: { id } })] *)
Definition task_findUnique (id : string) : M (option Task) :=
  log (task_findUnique_call id);;
  d ← get_db; mret (tasks d !! id).

(** [prisma.task.create({ data })]: "Task_pkey" and "Task_boardId_fkey"
    are checked by the database. *)
Definition task_create (e : Env) (data : TaskCreateInput) : M Task :=
  log task_create_call;;
  match task_of_create e data with
  | None => throw
  | Some t =>
      d ← get_db;
      match tasks d !! task_id t, boards d !! task_boardId t with
      | None, Some _ =>
          put_db (mkDb (boards d) (<[task_id t := t]> (tasks d)));; mret t
      | _, _ => throw
      end
  end.

(** [prisma.task.update({ where: { id }, data })] *)
Definition task_update (now : Z) (id : string) (data : TaskUpdateInput)
  : M Task :=
  log (task_update_call id);;
  d ← get_db;
  match tasks d !! id with
  | None => throw
  | Some t =>
      match task_of_update now t data with
      | None => throw
      | Some t' => put_db (mkDb (boards d) (<[id := t']> (tasks d)));; mret t'
      end
  end.

(** [prisma.task.delete({ where: { id } })] *)
Definition task_delete (id : string) : M Task :=
  log (task_delete_call id);;
  d ← get_db;
  match tasks d !! id with
  | None => throw
  | Some t => put_db (mkDb (boards d) (delete id (tasks d)));; mret t
  end.

(** [prisma.board.create({ data })] *)
Definition board_create (e : Env) (data : BoardCreateInput) : M Board :=
  log board_create_call;;
  match board_of_create e data with
  | None => throw
  | Some b =>
      d ← get_db;
      match boards d !! board_id b with
      | None => put_db (mkDb (<[board_id b := b]> (boards d)) (tasks d));; mret b
      | Some _ => throw
      end
  end.

(** The rows of "Task" that survive the deletion of board [id]:
    [ON DELETE CASCADE] of "Task_boardId_fkey". *)
Definition cascade (id : string) (ts : gmap string Task) : gmap string Task :=
  filter (λ kv, task_boardId kv.2 ≠ id) ts.

(** [prisma.board.delete({ where: { id } })] *)
Definition board_delete (id : string) : M Board :=
  log (board_delete_call id);;
  d ← get_db;
  match boards d !! id with
  | None => throw
  | Some b => put_db (mkDb (delete id (boards d)) (cascade id (tasks d)));; mret b
  end.

End Prisma.

(** ** Responses *)

Inductive Payload : Type :=
| error_body (error : string)
| task_body (t : Task)
| tasks_body (ts : list Task)
| board_body (b : Board).

(** [NextResponse.json(body, { status })] *)
Record Response : Type := NextResponse_json {
  res_body : Payload;
  res_status : Z
}.

(** [try { ... } catch (error) { return NextResponse.json(..., 500) }] *)
Definition try_catch (body : M Response) (on_error : Response)
  : World → Response * World :=
  λ w, match body w with
       | (Ret r, w') => (r, w')
       | (Throw, w') => (on_error, w')
       end.

(** The destructured JSON body of POST and PATCH on tasks: an object,
    each of whose keys holds any JSON value or is absent. *)
Record TaskBody : Type := mkTaskBody {
  boardId : jsval;
  title : jsval;
  description : jsval;
  status : jsval;
  priority : jsval;
  assignedTo : jsval;
  dueDate : jsval
}.

Definition validStatuses : list string := ["todo"; "in_progress"; "done"].
Definition validPriorities : list string := ["low"; "medium"; "high"].

(** [if (x !== undefined) updateData.x = x] *)
Definition provided (v : jsval) : option jsval :=
  match v with
  | JUndefined => None
  | _ => Some v
  end.

Definition is_undefined (v : jsval) : bool :=
  match v with
  | JUndefined => true
  | _ => false
  end.

Definition is_null (v : jsval) : bool :=
  match v with
  | JNull => true
  | _ => false
  end.

(** [v ? new Date(v) : null] *)
Definition date_or_null (e : Env) (v : jsval) : Prisma.DateArg :=
  if truthy v then Prisma.DateObj (env_newDate e v) else Prisma.DateNull.

(** ** [orderBy: [{ order: 'asc' }, { createdAt: 'desc' }]] *)

Definition task_le (t1 t2 : Task) : Prop :=
  task_order t1 < task_order t2
  ∨ (task_order t1 = task_order t2 ∧ task_createdAt t2 ≤ task_createdAt t1).

#[global] Instance task_le_dec : RelDecision task_le.
Proof. intros t1 t2. unfold task_le. apply _. Defined.

(** The rows of the table, in no particular order. *)
Definition rows (ts : gmap string Task) : list Task := (map_to_list ts).*2.

(** What [findMany({ where: { boardId }, orderBy })] asks of the database:
    the rows of that board, each once, sorted on the two keys.  Rows that
    agree on both keys may come in any order. *)
Definition findMany_admits (d : Db) (b : string) (l : list Task) : Prop :=
  l ≡ₚ filter (λ t, task_boardId t = b) (rows (tasks d)) ∧ Sorted task_le l.

(** A query engine answers [findMany]; it is sound when every answer is
    admitted. *)
Definition QueryEngine : Type := Db → string → list Task.

Definition engine_sound (q : QueryEngine) : Prop :=
  ∀ d b, findMany_admits d b (q d b).

(** Two engines: both sort on the two keys, one scans the table forwards,
    the other backwards. *)
Definition scan_forward : QueryEngine :=
  λ d b, merge_sort task_le (filter (λ t, task_boardId t = b) (rows (tasks d))).

Definition scan_backward : QueryEngine :=
  λ d b, merge_sort task_le
           (reverse (filter (λ t, task_boardId t = b) (rows (tasks d)))).

(** [prisma.task.findMany({ where: { boardId }, orderBy: [...] })] *)
Definition task_findMany (q : QueryEngine) (b : string) : M (list Task) :=
  log (task_findMany_call b);;
  d ← get_db; mret (q d b).

(** ** [app/api/tasks/route.ts] *)

Module TasksRoute.

Definition internal_error : Response :=
  NextResponse_json (error_body "Internal server error") 500.

(** The [data] object POST hands to [prisma.task.create]. *)
Definition data (e : Env) (body : TaskBody) : Prisma.TaskCreateInput :=
  Prisma.mkTaskCreateInput
    (boardId body)
    (title body)
    (nullish_or (description body) JNull)
    (nullish_or (status body) (JStr "todo"))
    (nullish_or (priority body) JNull)
    (nullish_or (assignedTo body) JNull)
    (date_or_null e (dueDate body)).

(** [POST /api/tasks] *)
Definition POST (e : Env) (body : TaskBody) : World → Response * World :=
  try_catch
    (if negb (truthy (boardId body)) then
       mret (NextResponse_json (error_body "boardId is required") 400)
     else if negb (truthy (title body)) then
       mret (NextResponse_json (error_body "title is required") 400)
     else
       board ← Prisma.board_findUnique (boardId body);
       match board with
       | None => mret (NextResponse_json (error_body "Board not found") 404)
       | Some _ =>
           if truthy (status body)
              && negb (includes validStatuses (status body)) then
             mret (NextResponse_json
                     (error_body
                        "Invalid status. Must be one of: todo, in_progress, done")
                     400)
           else if truthy (priority body)
                   && negb (includes validPriorities (priority body)) then
             mret (NextResponse_json
                     (error_body
                        "Invalid priority. Must be one of: low, medium, high")
                     400)
           else
             task ← Prisma.task_create e (data e body);
             mret (NextResponse_json (task_body task) 201)
       end)
    internal_error.

(** [searchParams.get('boardId')] is a string or [null]; [!boardId] holds
    of [null] and of the empty string. *)
Definition param_missing (p : option string) : bool :=
  match p with
  | None => true
  | Some s => negb (truthy (JStr s))
  end.

(** [GET /api/tasks?boardId=X] *)
Definition GET (q : QueryEngine) (p : option string)
  : World → Response * World :=
  try_catch
    (if param_missing p then
       mret (NextResponse_json
               (error_body "boardId query parameter is required") 400)
     else
       ts ← task_findMany q (default "" p);
       mret (NextResponse_json (tasks_body ts) 200))
    internal_error.

End TasksRoute.

(** ** [app/api/tasks/[id]/route.ts] *)

Module TaskIdRoute.

Definition internal_error : Response := TasksRoute.internal_error.

Definition not_found : Response :=
  NextResponse_json (error_body "Task not found") 404.

(** [GET /api/tasks/[id]] *)
Definition GET (id : string) : World → Response * World :=
  try_catch
    (task ← Prisma.task_findUnique id;
     match task with
     | None => mret not_found
     | Some t => mret (NextResponse_json (task_body t) 200)
     end)
    internal_error.

(** The [updateData] object PATCH builds. *)
Definition updateData (e : Env) (body : TaskBody) : Prisma.TaskUpdateInput :=
  Prisma.mkTaskUpdateInput
    (provided (title body))
    (provided (description body))
    (provided (status body))
    (provided (priority body))
    (provided (assignedTo body))
    (if is_undefined (dueDate body) then None
     else Some (date_or_null e (dueDate body))).

(** [PATCH /api/tasks/[id]] *)
Definition PATCH (e : Env) (id : string) (body : TaskBody)
  : World → Response * World :=
  try_catch
    (existingTask ← Prisma.task_findUnique id;
     match existingTask with
     | None => mret not_found
     | Some _ =>
         if negb (is_undefined (status body))
            && negb (includes validStatuses (status body)) then
           mret (NextResponse_json
                   (error_body
                      "Invalid status. Must be one of: todo, in_progress, done")
                   400)
         else if negb (is_undefined (priority body))
                 && negb (is_null (priority body))
                 && negb (includes validPriorities (priority body)) then
           mret (NextResponse_json
                   (error_body
                      "Invalid priority. Must be one of: low, medium, high")
                   400)
         else
           task ← Prisma.task_update (env_now e) id (updateData e body);
           mret (NextResponse_json (task_body task) 200)
     end)
    internal_error.

(** [DELETE /api/tasks/[id]] *)
Definition DELETE (id : string) : World → Response * World :=
  try_catch
    (existingTask ← Prisma.task_findUnique id;
     match existingTask with
     | None => mret not_found
     | Some _ =>
         task ← Prisma.task_delete id;
         mret (NextResponse_json (task_body task) 200)
     end)
    internal_error.

End TaskIdRoute.

(** ** [app/api/boards/route.ts] and [app/api/boards/[id]/route.ts] *)

(** The destructured JSON body of POST on boards. *)
Record BoardBody : Type := mkBoardBody {
  name : jsval;
  bdescription : jsval;
  color : jsval
}.

Module BoardsRoute.

(** [name.trim()]; the guard before it lets only strings through. *)
Definition trim_of (v : jsval) : string :=
  match v with
  | JStr s => trim s
  | _ => ""
  end.

(** [POST /api/boards] *)
Definition POST (e : Env) (body : BoardBody) : World → Response * World :=
  try_catch
    (if negb (truthy (name body))
        || not_a_string (name body)
        || String.eqb (trim_of (name body)) "" then
       mret (NextResponse_json (error_body "Name is required") 400)
     else
       board ← Prisma.board_create e
                 (Prisma.mkBoardCreateInput
                    (JStr (trim_of (name body)))
                    (nullish_or (bdescription body) JNull)
                    (nullish_or (color body) JNull));
       mret (NextResponse_json (board_body board) 201))
    (NextResponse_json (error_body "Failed to create board") 500).

End BoardsRoute.

Module BoardIdRoute.

(** [DELETE /api/boards/[id]] *)
Definition DELETE (id : string) : World → Response * World :=
  try_catch
    (existingBoard ← Prisma.board_findUnique (JStr id);
     match existingBoard with
     | None => mret (NextResponse_json (error_body "Board not found") 404)
     | Some _ =>
         deletedBoard ← Prisma.board_delete id;
         mret (NextResponse_json (board_body deletedBoard) 200)
     end)
    (NextResponse_json (error_body "Failed to delete board") 500).

End BoardIdRoute.

(** ** Requests, one after the other *)

Inductive Request : Type :=
| TasksPOST (e : Env) (body : TaskBody)
| TasksGET (p : option string)
| TaskGET (id : string)
| TaskPATCH (e : Env) (id : string) (body : TaskBody)
| TaskDELETE (id : string)
| BoardsPOST (e : Env) (body : BoardBody)
| BoardDELETE (id : string).

Definition serve (q : QueryEngine) (r : Request) : World → Response * World :=
  match r with
  | TasksPOST e body => TasksRoute.POST e body
  | TasksGET p => TasksRoute.GET q p
  | TaskGET id => TaskIdRoute.GET id
  | TaskPATCH e id body => TaskIdRoute.PATCH e id body
  | TaskDELETE id => TaskIdRoute.DELETE id
  | BoardsPOST e body => BoardsRoute.POST e body
  | BoardDELETE id => BoardIdRoute.DELETE id
  end.

Fixpoint serve_all (q : QueryEngine) (rs : list Request) (w : World) : World :=
  match rs with
  | [] => w
  | r :: rs' => serve_all q rs' (serve q r w).2
  end.

(** ** The names the specification gives to the error responses *)

Definition MissingFieldError (r : Response) : Prop :=
  r = NextResponse_json (error_body "boardId is required") 400
  ∨ r = NextResponse_json (error_body "title is required") 400.

Definition InvalidEnumError (r : Response) : Prop :=
  r = NextResponse_json
        (error_body "Invalid status. Must be one of: todo, in_progress, done")
        400
  ∨ r = NextResponse_json
          (error_body "Invalid priority. Must be one of: low, medium, high")
          400.

Definition BoardNotFoundError (r : Response) : Prop :=
  r = NextResponse_json (error_body "Board not found") 404.

Definition NotFoundError (r : Response) : Prop :=
  r = NextResponse_json (error_body "Task not found") 404.

Definition MissingParameterError (r : Response) : Prop :=
  r = NextResponse_json (error_body "boardId query parameter is required") 400.

(** ** The optimistic client views *)

(** What the awaited [fetch] came to: [response.ok] with the parsed body,
    or a failure (a thrown error or a response that is not ok). *)
Inductive Fetched (A : Type) : Type :=
| fetch_ok (a : A)
| fetch_failed.
Arguments fetch_ok {A} a.
Arguments fetch_failed {A}.

(** [{ ...t, status: s }] *)
Definition with_status (t : Task) (s : string) : Task :=
  mkTask (task_id t) (task_title t) (task_description t) s (task_priority t)
    (task_assignedTo t) (task_dueDate t) (task_createdAt t) (task_updatedAt t)
    (task_boardId t) (task_order t).

(** [app/board/[id]/page.tsx]: the [tasks] state and its handlers.  Each
    handler reads [tasks] as it was when the handler started and applies
    its [setTasks] updaters one after the other. *)
Module BoardDetailPage.

(** [handleCreateTask]: [optimisticTask] carries the id
    [`temp-${Date.now()}`]. *)
Definition handleCreateTask (tasks : list Task) (optimisticTask : Task)
    (r : Fetched Task) : list Task :=
  let optimisticId := task_id optimisticTask in
  let prev := (tasks ++ [optimisticTask])%list in
  match r with
  | fetch_ok newTask =>
      (λ t, if decide (task_id t = optimisticId) then newTask else t) <$> prev
  | fetch_failed =>
      filter (λ t, task_id t ≠ optimisticId) prev
  end.

(** [handleStatusChange] *)
Definition handleStatusChange (tasks : list Task) (taskId newStatus : string)
    (r : Fetched Task) : list Task :=
  match List.find (λ t, bool_decide (task_id t = taskId)) tasks with
  | None => tasks
  | Some task =>
      let previousStatus := task_status task in
      let prev :=
        (λ t, if decide (task_id t = taskId) then with_status t newStatus
              else t) <$> tasks in
      match r with
      | fetch_ok updatedTask =>
          (λ t, if decide (task_id t = taskId) then updatedTask else t) <$> prev
      | fetch_failed =>
          (λ t, if decide (task_id t = taskId) then with_status t previousStatus
                else t) <$> prev
      end
  end.

(** [handleDeleteConfirm]; [!deletingTaskId] holds of [null] and of the
    empty string. *)
Definition handleDeleteConfirm (tasks : list Task)
    (deletingTaskId : option string) (r : Fetched unit) : list Task :=
  match deletingTaskId with
  | None => tasks
  | Some id =>
      if negb (truthy (JStr id)) then tasks
      else
        match List.find (λ t, bool_decide (task_id t = id)) tasks with
        | None => tasks
        | Some taskToDelete =>
            let prev := filter (λ t, task_id t ≠ id) tasks in
            match r with
            | fetch_ok _ => prev
            | fetch_failed => (prev ++ [taskToDelete])%list
            end
        end
  end.

End BoardDetailPage.

(** [app/page.tsx]: the [boards] state of the dashboard. *)
Module Dashboard.

(** [handleDeleteConfirm]; [!deleteConfirm] holds of [null] and of the
    empty string. *)
Definition handleDeleteConfirm (boards : list Board)
    (deleteConfirm : option string) (r : Fetched unit) : list Board :=
  match deleteConfirm with
  | None => boards
  | Some boardToDelete =>
      if negb (truthy (JStr boardToDelete)) then boards
      else
        let previousBoards := boards in
        let prev := filter (λ b, board_id b ≠ boardToDelete) boards in
        match r with
        | fetch_ok _ => prev
        | fetch_failed => previousBoards
        end
  end.

End Dashboard.

(** ** Sample data *)

Module Sample.

Definition launch : Board := mkBoard "b1" "Launch" None None 1000 1000.

Definition db1 : Db := mkDb {[ "b1" := launch ]} ∅.

Definition env (id : string) (now : Z) : Env :=
  mkEnv now id (λ _, None) 0.

Definition body (t : jsval) : TaskBody :=
  mkTaskBody (JStr "b1") t JUndefined JUndefined JUndefined JUndefined
    JUndefined.

Definition write_copy_with (status : string) : Task :=
  mkTask "t1" "Write copy" None status None None None 2000 2000 "b1" 0.

Definition write_copy : Task := write_copy_with "todo".

Definition ship_it : Task :=
  mkTask "t2" "Ship it" None "todo" None None None 2000 2000 "b1" 0.

Definition db2 : Db :=
  mkDb {[ "b1" := launch ]} (<["t1" := write_copy]> {[ "t2" := ship_it ]}).

End Sample.

(** ** What a handler can come to

    One constructor for each path through a handler, with the tests that
    select the path as premises. *)

(** The world after some more ORM calls that wrote nothing. *)
Definition logged (cs : list StoreCall) (w : World) : World :=
  mkWorld (db w) (calls w ++ cs)%list.

Definition status_rejected (body : TaskBody) : bool :=
  negb (is_undefined (status body))
  && negb (includes validStatuses (status body)).

(** Text the database stores holds no U+0000; the database refuses any
    other, and the write throws. *)
Definition no_nul (s : string) : Prop :=
  Ascii.zero ∉ list_ascii_of_string s.

(** The text a request value carries into a column, if it carries one, is
    text the database stores. *)
Definition storable (v : jsval) : Prop :=
  ∀ s, Prisma.as_String_set v = Some s → no_nul s.

(** The patch carries none of the six keys PATCH reads. *)
Definition patch_empty (body : TaskBody) : bool :=
  is_undefined (title body) && is_undefined (description body)
  && is_undefined (status body) && is_undefined (priority body)
  && is_undefined (assignedTo body) && is_undefined (dueDate body).

Definition priority_rejected (body : TaskBody) : bool :=
  negb (is_undefined (priority body))
  && negb (is_null (priority body))
  && negb (includes validPriorities (priority body)).

Definition board_data (body : BoardBody) : Prisma.BoardCreateInput :=
  Prisma.mkBoardCreateInput
    (JStr (BoardsRoute.trim_of (name body)))
    (nullish_or (bdescription body) JNull)
    (nullish_or (color body) JNull).

Inductive POST_task_outcome (e : Env) (body : TaskBody) (w : World)
  : Response * World → Prop :=
| POST_boardId_required :
    truthy (boardId body) = false →
    POST_task_outcome e body w
      (NextResponse_json (error_body "boardId is required") 400, w)
| POST_title_required :
    truthy (boardId body) = true →
    truthy (title body) = false →
    POST_task_outcome e body w
      (NextResponse_json (error_body "title is required") 400, w)
| POST_lookup_throws :
    truthy (boardId body) = true →
    truthy (title body) = true →
    not_a_string (boardId body) = true →
    POST_task_outcome e body w
      (TasksRoute.internal_error,
       logged [board_findUnique_call (boardId body)] w)
| POST_board_not_found bid :
    boardId body = JStr bid →
    truthy (title body) = true →
    boards (db w) !! bid = None →
    POST_task_outcome e body w
      (NextResponse_json (error_body "Board not found") 404,
       logged [board_findUnique_call (boardId body)] w)
| POST_invalid_status bid b :
    boardId body = JStr bid →
    truthy (title body) = true →
    boards (db w) !! bid = Some b →
    truthy (status body) = true →
    includes validStatuses (status body) = false →
    POST_task_outcome e body w
      (NextResponse_json
         (error_body "Invalid status. Must be one of: todo, in_progress, done")
         400,
       logged [board_findUnique_call (boardId body)] w)
| POST_invalid_priority bid b :
    boardId body = JStr bid →
    truthy (title body) = true →
    boards (db w) !! bid = Some b →
    truthy (status body) && negb (includes validStatuses (status body)) = false →
    truthy (priority body) = true →
    includes validPriorities (priority body) = false →
    POST_task_outcome e body w
      (NextResponse_json
         (error_body "Invalid priority. Must be one of: low, medium, high")
         400,
       logged [board_findUnique_call (boardId body)] w)
| POST_create_throws bid b :
    boardId body = JStr bid →
    truthy (title body) = true →
    boards (db w) !! bid = Some b →
    truthy (status body) && negb (includes validStatuses (status body)) = false →
    truthy (priority body)
      && negb (includes validPriorities (priority body)) = false →
    (Prisma.task_of_create e (TasksRoute.data e body) = None
     ∨ is_Some (tasks (db w) !! env_newId e)) →
    POST_task_outcome e body w
      (TasksRoute.internal_error,
       logged [board_findUnique_call (boardId body); task_create_call] w)
| POST_created bid b t :
    boardId body = JStr bid →
    truthy (title body) = true →
    boards (db w) !! bid = Some b →
    truthy (status body) && negb (includes validStatuses (status body)) = false →
    truthy (priority body)
      && negb (includes validPriorities (priority body)) = false →
    Prisma.task_of_create e (TasksRoute.data e body) = Some t →
    tasks (db w) !! env_newId e = None →
    POST_task_outcome e body w
      (NextResponse_json (task_body t) 201,
       mkWorld (mkDb (boards (db w)) (<[env_newId e := t]> (tasks (db w))))
         (calls w ++ [board_findUnique_call (boardId body); task_create_call])%list).

Inductive PATCH_task_outcome (e : Env) (id : string) (body : TaskBody)
    (w : World) : Response * World → Prop :=
| PATCH_not_found :
    tasks (db w) !! id = None →
    PATCH_task_outcome e id body w
      (TaskIdRoute.not_found, logged [task_findUnique_call id] w)
| PATCH_invalid_status t :
    tasks (db w) !! id = Some t →
    status_rejected body = true →
    PATCH_task_outcome e id body w
      (NextResponse_json
         (error_body "Invalid status. Must be one of: todo, in_progress, done")
         400,
       logged [task_findUnique_call id] w)
| PATCH_invalid_priority t :
    tasks (db w) !! id = Some t →
    status_rejected body = false →
    priority_rejected body = true →
    PATCH_task_outcome e id body w
      (NextResponse_json
         (error_body "Invalid priority. Must be one of: low, medium, high")
         400,
       logged [task_findUnique_call id] w)
| PATCH_update_throws t :
    tasks (db w) !! id = Some t →
    status_rejected body = false →
    priority_rejected body = false →
    Prisma.task_of_update (env_now e) t (TaskIdRoute.updateData e body) = None →
    PATCH_task_outcome e id body w
      (TaskIdRoute.internal_error,
       logged [task_findUnique_call id; task_update_call id] w)
| PATCH_updated t t' :
    tasks (db w) !! id = Some t →
    status_rejected body = false →
    priority_rejected body = false →
    Prisma.task_of_update (env_now e) t (TaskIdRoute.updateData e body)
      = Some t' →
    PATCH_task_outcome e id body w
      (NextResponse_json (task_body t') 200,
       mkWorld (mkDb (boards (db w)) (<[id := t']> (tasks (db w))))
         (calls w ++ [task_findUnique_call id; task_update_call id])%list).

Inductive DELETE_task_outcome (id : string) (w : World)
  : Response * World → Prop :=
| DELETE_not_found :
    tasks (db w) !! id = None →
    DELETE_task_outcome id w
      (TaskIdRoute.not_found, logged [task_findUnique_call id] w)
| DELETE_deleted t :
    tasks (db w) !! id = Some t →
    DELETE_task_outcome id w
      (NextResponse_json (task_body t) 200,
       mkWorld (mkDb (boards (db w)) (delete id (tasks (db w))))
         (calls w ++ [task_findUnique_call id; task_delete_call id])%list).

Inductive POST_board_outcome (e : Env) (body : BoardBody) (w : World)
  : Response * World → Prop :=
| POST_name_required :
    negb (truthy (name body)) || not_a_string (name body)
      || String.eqb (BoardsRoute.trim_of (name body)) "" = true →
    POST_board_outcome e body w
      (NextResponse_json (error_body "Name is required") 400, w)
| POST_board_throws s :
    name body = JStr s →
    trim s ≠ "" →
    (Prisma.board_of_create e (board_data body) = None
     ∨ is_Some (boards (db w) !! env_newId e)) →
    POST_board_outcome e body w
      (NextResponse_json (error_body "Failed to create board") 500,
       logged [board_create_call] w)
| POST_board_created s b :
    name body = JStr s →
    trim s ≠ "" →
    Prisma.board_of_create e (board_data body) = Some b →
    boards (db w) !! env_newId e = None →
    POST_board_outcome e body w
      (NextResponse_json (board_body b) 201,
       mkWorld (mkDb (<[env_newId e := b]> (boards (db w))) (tasks (db w)))
         (calls w ++ [board_create_call])%list).

Inductive DELETE_board_outcome (id : string) (w : World)
  : Response * World → Prop :=
| DELETE_board_not_found :
    boards (db w) !! id = None →
    DELETE_board_outcome id w
      (NextResponse_json (error_body "Board not found") 404,
       logged [board_findUnique_call (JStr id)] w)
| DELETE_board_deleted b :
    boards (db w) !! id = Some b →
    DELETE_board_outcome id w
      (NextResponse_json (board_body b) 200,
       mkWorld (mkDb (delete id (boards (db w)))
                  (Prisma.cascade id (tasks (db w))))
         (calls w ++ [board_findUnique_call (JStr id); board_delete_call id])%list).

(** Every task row names a board row. *)
Definition ref_integrity (d : Db) : Prop :=
  ∀ id t, tasks d !! id = Some t → is_Some (boards d !! task_boardId t).

(** How POST /api/boards stores an optional text field. *)
Definition stored_optional (v : jsval) (column : option string) : Prop :=
  match v with
  | JStr s => column = Some s
  | JUndefined | JNull => column = None
  | _ => False
  end.

(** ** More sample data *)

Module Sample_create.

Definition body_done : TaskBody :=
  mkTaskBody (JStr "b1") (JStr "Write copy") JUndefined (JStr "done")
    JUndefined JUndefined JUndefined.

Definition body_nulls : TaskBody :=
  mkTaskBody (JStr "b1") (JStr "Write copy") JUndefined JNull JNull
    JUndefined JUndefined.

Definition body_urgent : TaskBody :=
  mkTaskBody (JStr "b1") (JStr "Write copy") JUndefined JUndefined
    (JStr "urgent") JUndefined JUndefined.

Definition body_empty_status : TaskBody :=
  mkTaskBody (JStr "b1") (JStr "Write copy") JUndefined (JStr "")
    JUndefined JUndefined JUndefined.

Definition body_blank_title : TaskBody :=
  mkTaskBody (JStr "b1") (JStr "   ") JUndefined JUndefined JUndefined
    JUndefined JUndefined.

Definition e1 : Env := Sample.env "t1" 2000.
Definition w1 : World := fresh_world Sample.db1.

End Sample_create.

Module Sample_update.

Definition body_in_progress : TaskBody :=
  mkTaskBody JUndefined JUndefined JUndefined (JStr "in_progress") JUndefined
    JUndefined JUndefined.

Definition e2 : Env := Sample.env "unused" 3000.
Definition w2 : World := fresh_world Sample.db2.

End Sample_update.

Module Sample_board.

Definition body : BoardBody :=
  mkBoardBody (JStr "  Launch ") JUndefined (JStr "#6366f1").

Definition e0 : Env := Sample.env "b1" 1000.

Definition stored : Board :=
  mkBoard "b1" "Launch" None (Some "#6366f1") 1000 1000.

End Sample_board.

(** ** The rest of the route files and of the pages *)

(** Both tables index their rows by the [id] column. *)
Definition key_consistent (d : Db) : Prop :=
  (∀ id t, tasks d !! id = Some t → task_id t = id)
  ∧ (∀ id b, boards d !! id = Some b → board_id b = id).

(** The body [GET /api/boards/[id]] answers with: the board and its
    [tasks] array. *)
Record BoardWithTasks : Type := mkBoardWithTasks {
  bt_board : Board;
  bt_tasks : list Task
}.

Inductive BoardResponse : Type :=
| board_json (b : BoardWithTasks) (status : Z)
| plain_json (r : Response).

(** What [include: { tasks: true }] asks of the database: the rows of that
    board, each once, in any order. *)
Definition include_sound (q : QueryEngine) : Prop :=
  ∀ d b, q d b ≡ₚ filter (λ t, task_boardId t = b) (rows (tasks d)).

Module BoardIdRead.

(** [prisma.board.findUnique({ where: { id }, include: { tasks: true } })] *)
Definition board_findUnique_include (q : QueryEngine) (id : string)
  : M (option BoardWithTasks) :=
  log (board_findUnique_call (JStr id));;
  d ← get_db;
  mret ((λ b, mkBoardWithTasks b (q d id)) <$> boards d !! id).

(** [GET /api/boards/[id]] *)
Definition GET (q : QueryEngine) (id : string)
  : World → BoardResponse * World :=
  λ w,
    match (board ← board_findUnique_include q id;
           match board with
           | None =>
               mret (plain_json
                       (NextResponse_json (error_body "Board not found") 404))
           | Some b => mret (board_json b 200)
           end) w with
    | (Ret r, w') => (r, w')
    | (Throw, w') =>
        (plain_json
           (NextResponse_json (error_body "Failed to fetch board") 500), w')
    end.

End BoardIdRead.

(** [s || undefined] and [s || null] for a string or an absent value, and
    what [JSON.stringify] makes of an optional key. *)
Definition or_undefined (s : string) : option string :=
  if String.eqb s "" then None else Some s.

Definition or_null (o : option string) : jsval :=
  match o with
  | Some s => if String.eqb s "" then JNull else JStr s
  | None => JNull
  end.

Definition json_opt (o : option string) : jsval :=
  match o with
  | Some s => JStr s
  | None => JUndefined
  end.

(** [components/CreateTaskForm.tsx] *)
Module CreateTaskForm.

Record FormState : Type := mkFormState {
  title_input : string;
  description_input : string;
  priority_input : string;
  assignedTo_input : string;
  dueDate_input : string
}.

(** The argument of [onSubmit]. *)
Record Submission : Type := mkSubmission {
  sub_title : string;
  sub_description : option string;
  sub_priority : option string;
  sub_assignedTo : option string;
  sub_dueDate : option string
}.

(** [handleSubmit]: the error it sets, or what it hands to [onSubmit]. *)
Definition handleSubmit (st : FormState) : string + Submission :=
  if String.eqb (trim (title_input st)) "" then
    inl "Task title is required"
  else
    inr (mkSubmission
           (trim (title_input st))
           (or_undefined (trim (description_input st)))
           (or_undefined (priority_input st))
           (or_undefined (trim (assignedTo_input st)))
           (or_undefined (dueDate_input st))).

End CreateTaskForm.

(** [components/CreateBoardForm.tsx] *)
Module CreateBoardForm.

Record FormState : Type := mkFormState {
  name_input : string;
  description_input : string;
  selectedColor : option string
}.

Record Submission : Type := mkSubmission {
  sub_name : string;
  sub_description : option string;
  sub_color : option string
}.

(** [handleSubmit] *)
Definition handleSubmit (st : FormState) : string + Submission :=
  if String.eqb (trim (name_input st)) "" then
    inl "Board name is required"
  else
    inr (mkSubmission
           (trim (name_input st))
           (or_undefined (trim (description_input st)))
           (selectedColor st)).

End CreateBoardForm.

(** The requests the board detail page sends, and what it shows. *)
Module BoardDetailRequests.

(** The body [handleCreateTask] posts. *)
Definition create_body (boardId : string) (data : CreateTaskForm.Submission)
  : TaskBody :=
  mkTaskBody
    (JStr boardId)
    (JStr (CreateTaskForm.sub_title data))
    (json_opt (CreateTaskForm.sub_description data))
    JUndefined
    (json_opt (CreateTaskForm.sub_priority data))
    (json_opt (CreateTaskForm.sub_assignedTo data))
    (json_opt (CreateTaskForm.sub_dueDate data)).

(** The body [handleStatusChange] patches with: [{ status: newStatus }]. *)
Definition status_body (newStatus : string) : TaskBody :=
  mkTaskBody JUndefined JUndefined JUndefined (JStr newStatus) JUndefined
    JUndefined JUndefined.

(** [EditTaskData] *)
Record EditTaskData : Type := mkEditTaskData {
  edit_title : string;
  edit_description : option string;
  edit_priority : option string;
  edit_assignedTo : option string;
  edit_dueDate : option string;
  edit_status : option string
}.

(** The body [handleEditSubmit] patches with. *)
Definition edit_body (f : EditTaskData) : TaskBody :=
  mkTaskBody
    JUndefined
    (JStr (trim (edit_title f)))
    (or_null (trim <$> edit_description f))
    (json_opt (edit_status f))
    (or_null (edit_priority f))
    (or_null (trim <$> edit_assignedTo f))
    (or_null (edit_dueDate f)).

(** [handleEditSubmit]: the request it sends, if any. *)
Definition edit_request (editingTask : option Task) (f : EditTaskData)
  : option (string * TaskBody) :=
  match editingTask with
  | None => None
  | Some t =>
      if String.eqb (trim (edit_title f)) "" then None
      else Some (task_id t, edit_body f)
  end.

(** [handleEditSubmit]: the task list and the [editError] it leaves. *)
Definition handleEditSubmit (tasks : list Task) (editingTask : option Task)
    (f : EditTaskData) (r : Fetched Task) : list Task * option string :=
  match editingTask with
  | None => (tasks, None)
  | Some editing =>
      if String.eqb (trim (edit_title f)) "" then
        (tasks, Some "Task title is required")
      else
        match r with
        | fetch_ok updatedTask =>
            ((λ t, if decide (task_id t = task_id editing) then updatedTask
                   else t) <$> tasks,
             None)
        | fetch_failed => (tasks, Some "Failed to update task")
        end
  end.

(** The three columns. *)
Definition todoTasks (tasks : list Task) : list Task :=
  filter (λ t, task_status t = "todo") tasks.

Definition inProgressTasks (tasks : list Task) : list Task :=
  filter (λ t, task_status t = "in_progress") tasks.

Definition doneTasks (tasks : list Task) : list Task :=
  filter (λ t, task_status t = "done") tasks.

End BoardDetailRequests.

(** The requests of the dashboard. *)
Module DashboardRequests.

(** The body [handleCreateBoard] posts: [JSON.stringify(data)]. *)
Definition create_body (data : CreateBoardForm.Submission) : BoardBody :=
  mkBoardBody
    (JStr (CreateBoardForm.sub_name data))
    (json_opt (CreateBoardForm.sub_description data))
    (json_opt (CreateBoardForm.sub_color data)).

(** [handleCreateBoard]: the new board goes first. *)
Definition handleCreateBoard (boards : list Board) (r : Fetched Board)
  : list Board :=
  match r with
  | fetch_ok newBoard => newBoard :: boards
  | fetch_failed => boards
  end.

End DashboardRequests.

(** [t] with its [updatedAt] column set to [now]. *)
Definition touch (t : Task) (now : Z) : Task :=
  mkTask (task_id t) (task_title t) (task_description t) (task_status t)
    (task_priority t) (task_assignedTo t) (task_dueDate t) (task_createdAt t)
    now (task_boardId t) (task_order t).

(** * Properties *)

(** ** Running a handler *)

Ltac run :=
  unfold try_catch, mbind, M_bind, mret, M_ret, log, get_db, put_db, throw,
    logged in *;
  simpl in *.

(** Close a goal whose hypothesis [Hbad] says a check fired while two
    others say it did not. *)
Ltac rewrite_bad Hbad :=
  repeat match goal with
         | H : _ && _ = false |- _ => rewrite H in Hbad; clear H
         | H : _ = false |- _ => rewrite H in Hbad; clear H
         end;
  done.

Lemma truthy_JStr (s : string) : truthy (JStr s) = true ↔ s ≠ "".
Proof.
  simpl. destruct (String.eqb_spec s ""); simpl; split; congruence.
Qed.

Lemma app_log (w : World) (c1 c2 : StoreCall) :
  ((calls w ++ [c1]) ++ [c2])%list = (calls w ++ [c1; c2])%list.
Proof. by rewrite <- app_assoc. Qed.

(** *** POST /api/tasks, case by case *)

(** What [task_of_create] keeps of its input. *)
Lemma task_of_create_Some (e : Env) (d : Prisma.TaskCreateInput) (t : Task) :
  Prisma.task_of_create e d = Some t →
  task_id t = env_newId e
  ∧ Prisma.tc_boardId d = JStr (task_boardId t)
  ∧ Prisma.tc_title d = JStr (task_title t)
  ∧ Prisma.tc_status d = JStr (task_status t)
  ∧ Prisma.as_String_opt (Prisma.tc_description d) = Some (task_description t)
  ∧ Prisma.as_String_opt (Prisma.tc_priority d) = Some (task_priority t)
  ∧ Prisma.as_String_opt (Prisma.tc_assignedTo d) = Some (task_assignedTo t)
  ∧ Prisma.as_DateTime_opt (Prisma.tc_dueDate d) = Some (task_dueDate t)
  ∧ task_createdAt t = env_now e
  ∧ task_updatedAt t = env_now e
  ∧ task_order t = env_order_default e.
Proof.
  unfold Prisma.task_of_create. intros H.
  destruct (Prisma.tc_boardId d) eqn:Eb; simplify_option_eq; try done.
  destruct (Prisma.tc_title d) eqn:Et; simplify_option_eq; try done.
  destruct (Prisma.tc_status d) eqn:Es; simplify_option_eq; done.
Qed.

Lemma POST_task_cases (e : Env) (body : TaskBody) (w : World) :
  POST_task_outcome e body w (TasksRoute.POST e body w).
Proof.
  unfold TasksRoute.POST.
  destruct (truthy (boardId body)) eqn:Hb; simpl.
  2: { run. by constructor. }
  destruct (truthy (title body)) eqn:Ht; simpl.
  2: { run. by constructor. }
  destruct (boardId body) as [| |?|?|bid| |?] eqn:Eb;
    try (run; rewrite <- Eb; by apply POST_lookup_throws; rewrite ?Eb).
  unfold Prisma.board_findUnique. run.
  destruct (boards (db w) !! bid) as [b|] eqn:Hl; simpl.
  2: { rewrite <- Eb. eapply POST_board_not_found; eauto. }
  destruct (truthy (status body) && negb (includes validStatuses (status body)))
    eqn:Hs; simpl.
  { apply andb_true_iff in Hs as [Hs1 Hs2]. apply negb_true_iff in Hs2.
    rewrite <- Eb. eapply POST_invalid_status; eauto. }
  destruct (truthy (priority body)
            && negb (includes validPriorities (priority body))) eqn:Hp; simpl.
  { apply andb_true_iff in Hp as [Hp1 Hp2]. apply negb_true_iff in Hp2.
    rewrite <- Eb. eapply POST_invalid_priority; eauto. }
  unfold Prisma.task_create. run.
  destruct (Prisma.task_of_create e (TasksRoute.data e body)) as [t|] eqn:Hc;
    simpl.
  2: { rewrite app_log, <- Eb. eapply POST_create_throws; eauto. }
  destruct (task_of_create_Some _ _ _ Hc) as (Hid & Hbid & _).
  simpl in Hbid. rewrite Eb in Hbid. injection Hbid as Hbid.
  rewrite Hid, <- Hbid, Hl.
  destruct (tasks (db w) !! env_newId e) eqn:Hpk; simpl.
  - rewrite app_log, <- Eb. eapply POST_create_throws; eauto.
  - rewrite app_log, <- Eb. eapply POST_created; eauto.
Qed.

(** *** PATCH and DELETE /api/tasks/[id], case by case *)

Lemma PATCH_task_cases (e : Env) (id : string) (body : TaskBody) (w : World) :
  PATCH_task_outcome e id body w (TaskIdRoute.PATCH e id body w).
Proof.
  unfold TaskIdRoute.PATCH, Prisma.task_findUnique. run.
  destruct (tasks (db w) !! id) as [t|] eqn:Hl; simpl.
  2: { by apply PATCH_not_found. }
  fold (status_rejected body).
  destruct (status_rejected body) eqn:Hs; simpl.
  { eapply PATCH_invalid_status; eauto. }
  fold (priority_rejected body).
  destruct (priority_rejected body) eqn:Hp; simpl.
  { eapply PATCH_invalid_priority; eauto. }
  unfold Prisma.task_update. run. rewrite Hl.
  destruct (Prisma.task_of_update _ t _) as [t'|] eqn:Hu; simpl;
    rewrite app_log.
  - eapply PATCH_updated; eauto.
  - eapply PATCH_update_throws; eauto.
Qed.

(** What an UPDATE keeps and what it writes. *)
Lemma task_of_update_Some (now : Z) (t t' : Task) (d : Prisma.TaskUpdateInput) :
  Prisma.task_of_update now t d = Some t' →
  task_id t' = task_id t
  ∧ task_boardId t' = task_boardId t
  ∧ task_createdAt t' = task_createdAt t
  ∧ task_order t' = task_order t
  ∧ task_updatedAt t'
    = (if Prisma.tu_empty d then task_updatedAt t else now)
  ∧ Prisma.column (task_title t) (Prisma.tu_title d) Prisma.as_String_set
    = Some (task_title t')
  ∧ Prisma.column (task_description t) (Prisma.tu_description d)
      Prisma.as_String_opt_set = Some (task_description t')
  ∧ Prisma.column (task_status t) (Prisma.tu_status d) Prisma.as_String_set
    = Some (task_status t')
  ∧ Prisma.column (task_priority t) (Prisma.tu_priority d)
      Prisma.as_String_opt_set = Some (task_priority t')
  ∧ Prisma.column (task_assignedTo t) (Prisma.tu_assignedTo d)
      Prisma.as_String_opt_set = Some (task_assignedTo t')
  ∧ Prisma.column (task_dueDate t) (Prisma.tu_dueDate d)
      Prisma.as_DateTime_opt = Some (task_dueDate t').
Proof.
  unfold Prisma.task_of_update. intros H.
  destruct (Prisma.column (task_title t) _ _) eqn:E1; simpl in H; [|done].
  destruct (Prisma.column (task_description t) _ _) eqn:E2; simpl in H; [|done].
  destruct (Prisma.column (task_status t) _ _) eqn:E3; simpl in H; [|done].
  destruct (Prisma.column (task_priority t) _ _) eqn:E4; simpl in H; [|done].
  destruct (Prisma.column (task_assignedTo t) _ _) eqn:E5; simpl in H; [|done].
  destruct (Prisma.column (task_dueDate t) _ _) eqn:E6; simpl in H; [|done].
  injection H as <-. simpl. repeat split; done.
Qed.

Lemma DELETE_task_cases (id : string) (w : World) :
  DELETE_task_outcome id w (TaskIdRoute.DELETE id w).
Proof.
  unfold TaskIdRoute.DELETE, Prisma.task_findUnique. run.
  destruct (tasks (db w) !! id) as [t|] eqn:Hl; simpl.
  2: { by apply DELETE_not_found. }
  unfold Prisma.task_delete. run. rewrite Hl. simpl. rewrite app_log.
  by apply DELETE_deleted.
Qed.

(** *** The reads *)

Lemma GET_task_run (id : string) (w : World) :
  TaskIdRoute.GET id w
  = (match tasks (db w) !! id with
     | None => TaskIdRoute.not_found
     | Some t => NextResponse_json (task_body t) 200
     end,
     logged [task_findUnique_call id] w).
Proof.
  unfold TaskIdRoute.GET, Prisma.task_findUnique. run.
  by destruct (tasks (db w) !! id).
Qed.

Lemma GET_tasks_run (q : QueryEngine) (p : option string) (w : World) :
  TasksRoute.GET q p w
  = if TasksRoute.param_missing p then
      (NextResponse_json
         (error_body "boardId query parameter is required") 400, w)
    else
      (NextResponse_json (tasks_body (q (db w) (default "" p))) 200,
       logged [task_findMany_call (default "" p)] w).
Proof.
  unfold TasksRoute.GET, task_findMany. run.
  by destruct (TasksRoute.param_missing p).
Qed.

(** *** POST /api/boards and DELETE /api/boards/[id], case by case *)

Lemma board_of_create_Some (e : Env) (d : Prisma.BoardCreateInput) (b : Board) :
  Prisma.board_of_create e d = Some b →
  board_id b = env_newId e
  ∧ Prisma.bc_name d = JStr (board_name b)
  ∧ Prisma.as_String_opt (Prisma.bc_description d) = Some (board_description b)
  ∧ Prisma.as_String_opt (Prisma.bc_color d) = Some (board_color b)
  ∧ board_createdAt b = env_now e
  ∧ board_updatedAt b = env_now e.
Proof.
  unfold Prisma.board_of_create. intros H.
  destruct (Prisma.bc_name d) eqn:En; simplify_option_eq; done.
Qed.

Lemma POST_board_cases (e : Env) (body : BoardBody) (w : World) :
  POST_board_outcome e body w (BoardsRoute.POST e body w).
Proof.
  unfold BoardsRoute.POST.
  destruct (negb (truthy (name body)) || not_a_string (name body)
            || String.eqb (BoardsRoute.trim_of (name body)) "") eqn:Hg; simpl.
  { run. by constructor. }
  apply orb_false_iff in Hg as [Hg Htrim].
  apply orb_false_iff in Hg as [_ Hstr].
  destruct (name body) as [| |?|?|s| |?] eqn:En; try done. simpl in Htrim.
  apply String.eqb_neq in Htrim.
  unfold Prisma.board_create. run. fold (board_data body).
  assert (Hd : Prisma.mkBoardCreateInput (JStr (trim s))
                 (nullish_or (bdescription body) JNull)
                 (nullish_or (color body) JNull) = board_data body).
  { unfold board_data. by rewrite En. }
  rewrite Hd.
  destruct (Prisma.board_of_create e (board_data body)) as [b|] eqn:Hc; simpl.
  2: { eapply POST_board_throws; eauto. }
  destruct (board_of_create_Some _ _ _ Hc) as (Hid & _). rewrite Hid.
  destruct (boards (db w) !! env_newId e) eqn:Hpk; simpl.
  - eapply POST_board_throws; eauto.
  - eapply POST_board_created; eauto.
Qed.

Lemma DELETE_board_cases (id : string) (w : World) :
  DELETE_board_outcome id w (BoardIdRoute.DELETE id w).
Proof.
  unfold BoardIdRoute.DELETE, Prisma.board_findUnique. run.
  destruct (boards (db w) !! id) as [b|] eqn:Hl; simpl.
  2: { by apply DELETE_board_not_found. }
  unfold Prisma.board_delete. run. rewrite Hl. simpl. rewrite app_log.
  by apply DELETE_board_deleted.
Qed.

(** ** Creation and the status column *)

(** C1, as stated, fails: a Create that supplies the status "done" inserts
    a task whose status is "done", not "todo". *)
Lemma C1_supplied_status_is_stored :
  let r := TasksRoute.POST Sample_create.e1 Sample_create.body_done
             Sample_create.w1 in
  ∃ t, r.1 = NextResponse_json (task_body t) 201
       ∧ tasks (db r.2) !! "t1" = Some t
       ∧ task_status t = "done"
       ∧ task_status t ≠ "todo".
Proof.
  eexists. split; [vm_compute; reflexivity|].
  split; [vm_compute; reflexivity|].
  split; [reflexivity|discriminate].
Qed.

(** C1, amended: the task a successful Create inserts has status "todo"
    when the request carries no status (absent or null), and the supplied
    status, one of todo, in_progress and done, when the request carries a
    truthy one. *)
Theorem C1_created_status (e : Env) (body : TaskBody) (w w' : World) (t : Task) :
  TasksRoute.POST e body w = (NextResponse_json (task_body t) 201, w') →
  tasks (db w') !! task_id t = Some t
  ∧ (status body = JUndefined ∨ status body = JNull → task_status t = "todo")
  ∧ (truthy (status body) = true →
     status body = JStr (task_status t) ∧ task_status t ∈ validStatuses).
Proof.
  intros H. pose proof (POST_task_cases e body w) as Hc. rewrite H in Hc.
  inversion Hc as [| | | | | | |bid b t0 Hb Ht Hl Hs Hp Hcr Hpk]; subst.
  destruct (task_of_create_Some _ _ _ Hcr) as (Hid & _ & _ & Hst & _).
  simpl in Hst. split; [|split].
  - simpl. rewrite Hid. apply lookup_insert_eq.
  - intros [E|E]; rewrite E in Hst; simpl in Hst; congruence.
  - intros Htr. rewrite Htr in Hs. simpl in Hs. apply negb_false_iff in Hs.
    destruct (status body) eqn:E; simpl in *; try done.
    injection Hst as <-. split; [done|]. by apply bool_decide_eq_true in Hs.
Qed.

Lemma C1_created_status_witness :
  let r := TasksRoute.POST Sample_create.e1 Sample_create.body_done
             Sample_create.w1 in
  tasks (db r.2) !! "t1" = Some (Sample.write_copy_with "done").
Proof.
  intros r.
  apply (C1_created_status Sample_create.e1 Sample_create.body_done
           Sample_create.w1 r.2 (Sample.write_copy_with "done")).
  vm_compute. reflexivity.
Defined.

(** ** Enumerated values *)

(** C2, as stated, fails: a Create whose status and priority are both an
    explicit null is not refused; the nulls count as absent and a task is
    inserted (status "todo", no priority).  And an invalid priority is not
    what a request is refused for when an earlier check fails: a Create on
    an unknown board answers BoardNotFoundError, an Update of an unknown
    task NotFoundError. *)
Lemma C2_create_accepts_null_enums :
  let r := TasksRoute.POST Sample_create.e1 Sample_create.body_nulls
             Sample_create.w1 in
  let r' := TasksRoute.POST Sample_create.e1 Sample_create.body_urgent
              (fresh_world empty_db) in
  let r'' := TaskIdRoute.PATCH Sample_create.e1 "ghost"
               Sample_create.body_urgent Sample_create.w1 in
  r.1 = NextResponse_json (task_body Sample.write_copy) 201
  ∧ ¬ InvalidEnumError r.1
  ∧ tasks (db r.2) !! "t1" = Some Sample.write_copy
  ∧ tasks (db Sample_create.w1) !! "t1" = None
  ∧ BoardNotFoundError r'.1 ∧ ¬ InvalidEnumError r'.1
  ∧ NotFoundError r''.1 ∧ ¬ InvalidEnumError r''.1.
Proof.
  split; [vm_compute; reflexivity|].
  split; [intros [H|H]; vm_compute in H; discriminate|].
  split; [vm_compute; reflexivity|]. split; [vm_compute; reflexivity|].
  split; [vm_compute; reflexivity|].
  split; [intros [H|H]; vm_compute in H; discriminate|].
  split; [vm_compute; reflexivity|].
  intros [H|H]; vm_compute in H; discriminate.
Qed.

(** The same truthiness test lets the empty string through on Create, and
    the row is written with it: PATCH, which tests [!== undefined], refuses
    the same value. *)
Lemma POST_stores_empty_status :
  let r := TasksRoute.POST Sample_create.e1 Sample_create.body_empty_status
             Sample_create.w1 in
  r.1 = NextResponse_json (task_body (Sample.write_copy_with "")) 201
  ∧ tasks (db r.2) !! "t1" = Some (Sample.write_copy_with "").
Proof. split; vm_compute; reflexivity. Qed.

Lemma PATCH_refuses_empty_status :
  let r := TaskIdRoute.PATCH (Sample.env "t9" 3000) "t1"
             Sample_create.body_empty_status (fresh_world Sample.db2) in
  InvalidEnumError r.1 ∧ db r.2 = Sample.db2.
Proof. split; [left|]; vm_compute; reflexivity. Qed.

(** C2, amended: a Create that carries its required fields and names an
    existing board, and supplies a truthy status outside
    {todo, in_progress, done} or a truthy priority outside
    {low, medium, high}, fails with InvalidEnumError and writes nothing; so
    does an Update of an existing task that supplies any status (anything
    but an absent key) outside the three, or any priority other than null
    outside the three.  An absent or null status or priority on Create is
    not an enumeration error, and a null priority on a successful Update
    clears the column. *)
Theorem C2_invalid_enum_rejected (e : Env) (body : TaskBody) (w : World) :
  (∀ bid b,
     boardId body = JStr bid → bid ≠ "" → truthy (title body) = true →
     boards (db w) !! bid = Some b →
     truthy (status body) && negb (includes validStatuses (status body))
     || truthy (priority body)
        && negb (includes validPriorities (priority body)) = true →
     InvalidEnumError (TasksRoute.POST e body w).1
     ∧ db (TasksRoute.POST e body w).2 = db w)
  ∧ (∀ id t,
       tasks (db w) !! id = Some t →
       status_rejected body || priority_rejected body = true →
       InvalidEnumError (TaskIdRoute.PATCH e id body w).1
       ∧ db (TaskIdRoute.PATCH e id body w).2 = db w)
  ∧ ((status body = JUndefined ∨ status body = JNull) →
     (priority body = JUndefined ∨ priority body = JNull) →
     ¬ InvalidEnumError (TasksRoute.POST e body w).1)
  ∧ (∀ id t' w',
       priority body = JNull →
       TaskIdRoute.PATCH e id body w
       = (NextResponse_json (task_body t') 200, w') →
       task_priority t' = None ∧ tasks (db w') !! id = Some t').
Proof.
  split; [|split; [|split]].
  - intros bid b Hb Hne Ht Hl Hbad.
    pose proof (POST_task_cases e body w) as Hc.
    assert (Htb : truthy (boardId body) = true).
    { rewrite Hb. by apply truthy_JStr. }
    inversion Hc; simplify_eq; try congruence;
      try (split; [by left|done]); try (split; [by right|done]).
    + rewrite Hb in *. done.
    + rewrite_bad Hbad.
    + rewrite_bad Hbad.
  - intros id t Hl Hbad.
    pose proof (PATCH_task_cases e id body w) as Hc.
    inversion Hc; simplify_eq; try congruence;
      try (split; [by left|done]); try (split; [by right|done]);
      rewrite_bad Hbad.
  - intros Hs Hp HI. pose proof (POST_task_cases e body w) as Hc.
    destruct (TasksRoute.POST e body w) as [r w']. simpl in HI.
    destruct HI as [-> | ->]; inversion Hc; subst.
    + destruct Hs as [E|E]; rewrite E in *; done.
    + destruct Hp as [E|E]; rewrite E in *; done.
  - intros id t' w' Hp H.
    pose proof (PATCH_task_cases e id body w) as Hc. rewrite H in Hc.
    inversion Hc as [| | | |t t0 Hl Hs Hpr Hu]; subst.
    destruct (task_of_update_Some _ _ _ _ Hu) as (_&_&_&_&_&_&_&_&Hpri&_).
    simpl in Hpri. rewrite Hp in Hpri. simpl in Hpri.
    split; [congruence|]. simpl. apply lookup_insert_eq.
Qed.

Lemma C2_invalid_enum_rejected_witness :
  (InvalidEnumError
     (TasksRoute.POST Sample_create.e1 Sample_create.body_urgent
        Sample_create.w1).1
   ∧ db (TasksRoute.POST Sample_create.e1 Sample_create.body_urgent
           Sample_create.w1).2 = db Sample_create.w1)
  ∧ (InvalidEnumError
       (TaskIdRoute.PATCH Sample_create.e1 "t1" Sample_create.body_urgent
          (fresh_world Sample.db2)).1
     ∧ db (TaskIdRoute.PATCH Sample_create.e1 "t1" Sample_create.body_urgent
             (fresh_world Sample.db2)).2 = Sample.db2).
Proof.
  split.
  - apply (proj1 (C2_invalid_enum_rejected Sample_create.e1
                    Sample_create.body_urgent Sample_create.w1)
             "b1" Sample.launch);
      [reflexivity|discriminate|reflexivity|vm_compute; reflexivity
      |vm_compute; reflexivity].
  - apply (proj1 (proj2 (C2_invalid_enum_rejected Sample_create.e1
                           Sample_create.body_urgent (fresh_world Sample.db2)))
             "t1" Sample.write_copy);
      vm_compute; reflexivity.
Defined.

(** ** Referential integrity *)

Lemma ref_integrity_empty : ref_integrity empty_db.
Proof. intros id t H. simpl in H. by rewrite lookup_empty in H. Qed.

Lemma cascade_lookup_Some (b id : string) (ts : gmap string Task) (t : Task) :
  Prisma.cascade b ts !! id = Some t ↔ ts !! id = Some t ∧ task_boardId t ≠ b.
Proof. unfold Prisma.cascade. by rewrite map_lookup_filter_Some. Qed.

Lemma serve_ref_integrity (q : QueryEngine) (r : Request) (w : World) :
  ref_integrity (db w) → ref_integrity (db (serve q r w).2).
Proof.
  intros Hinv. destruct r as [e body|p|id|e id body|id|e body|id]; simpl.
  - destruct (POST_task_cases e body w)
      as [| | | | | | |bid b t Hb Ht Hl Hs Hp Hcr Hpk]; try done.
    destruct (task_of_create_Some _ _ _ Hcr) as (_ & Hbid & _).
    simpl in Hbid. rewrite Hb in Hbid. injection Hbid as Hbid.
    intros id t0. simpl. rewrite lookup_insert.
    case_decide; [|by apply Hinv].
    intros [= <-]. rewrite <- Hbid. by rewrite Hl.
  - rewrite GET_tasks_run. by destruct (TasksRoute.param_missing p).
  - by rewrite GET_task_run.
  - destruct (PATCH_task_cases e id body w) as [| | | |t t' Hl Hs Hp Hu];
      try done.
    destruct (task_of_update_Some _ _ _ _ Hu) as (_ & Hbid & _).
    intros id0 t0. simpl. rewrite lookup_insert.
    case_decide; [|by apply Hinv].
    intros [= <-]. rewrite Hbid. by eapply Hinv.
  - destruct (DELETE_task_cases id w) as [|t Hl]; try done.
    intros id0 t0. simpl. rewrite lookup_delete_Some. intros [_ H].
    by eapply Hinv.
  - destruct (POST_board_cases e body w) as [| |s b Hn Htr Hcr Hpk]; try done.
    intros id0 t0 H. simpl in *. rewrite lookup_insert.
    case_decide; [done|by eapply Hinv].
  - destruct (DELETE_board_cases id w) as [|b Hl]; try done.
    intros id0 t0. simpl. rewrite cascade_lookup_Some. intros [H Hne].
    rewrite lookup_delete_ne by done. by eapply Hinv.
Qed.

Lemma serve_all_ref_integrity (q : QueryEngine) (rs : list Request) (w : World) :
  ref_integrity (db w) → ref_integrity (db (serve_all q rs w)).
Proof.
  revert w. induction rs as [|r rs IH]; intros w Hinv; simpl; [done|].
  apply IH. by apply serve_ref_integrity.
Qed.

(** No row of a deleted board is left for [findMany] to return. *)
Lemma cascade_rows_empty (b : string) (ts : gmap string Task) :
  filter (λ t, task_boardId t = b) (rows (Prisma.cascade b ts)) = [].
Proof.
  apply elem_of_nil_inv. intros t Hin.
  apply list_elem_of_filter in Hin as [Hb Hin].
  unfold rows in Hin. apply list_elem_of_fmap in Hin as [[id t'] [-> Hin]].
  apply elem_of_map_to_list in Hin. apply cascade_lookup_Some in Hin as [_ Hne].
  done.
Qed.

(** C3, as stated, fails in one place: a Create that names no existing
    board and carries an empty title is refused for the title, with
    MissingFieldError, before the board is looked up. *)
Lemma C3_missing_title_comes_first :
  let body := mkTaskBody (JStr "ghost") (JStr "") JUndefined JUndefined
                JUndefined JUndefined JUndefined in
  let r := TasksRoute.POST Sample_create.e1 body Sample_create.w1 in
  boards (db Sample_create.w1) !! "ghost" = None
  ∧ r = (NextResponse_json (error_body "title is required") 400,
         Sample_create.w1)
  ∧ MissingFieldError r.1
  ∧ ¬ BoardNotFoundError r.1.
Proof.
  split; [vm_compute; reflexivity|]. split; [vm_compute; reflexivity|].
  split; [right; vm_compute; reflexivity|].
  intros H. vm_compute in H. discriminate.
Qed.

(** C3, amended: every request keeps every task row on an existing board
    row; a Create whose boardId names no board writes nothing and, when it
    carries a title and a boardId that is a non-empty string, answers
    BoardNotFoundError; deleting a board removes the board row and exactly
    the task rows of that board, after which none of them can be read back,
    one by one or as a list. *)
Theorem C3_referential_integrity (q : QueryEngine) (w : World) :
  ref_integrity (db w) →
  (∀ rs, ref_integrity (db (serve_all q rs w)))
  ∧ (∀ e body,
       (∀ bid, boardId body = JStr bid → boards (db w) !! bid = None) →
       db (TasksRoute.POST e body w).2 = db w
       ∧ (truthy (boardId body) = true →
          not_a_string (boardId body) = false →
          truthy (title body) = true →
          BoardNotFoundError (TasksRoute.POST e body w).1))
  ∧ (∀ id b,
       boards (db w) !! id = Some b →
       let r := BoardIdRoute.DELETE id w in
       r.1 = NextResponse_json (board_body b) 200
       ∧ boards (db r.2) !! id = None
       ∧ (∀ id', id' ≠ id → boards (db r.2) !! id' = boards (db w) !! id')
       ∧ (∀ tid t,
            tasks (db r.2) !! tid = Some t
            ↔ tasks (db w) !! tid = Some t ∧ task_boardId t ≠ id)
       ∧ (∀ tid t,
            tasks (db w) !! tid = Some t → task_boardId t = id →
            NotFoundError (TaskIdRoute.GET tid r.2).1)
       ∧ (engine_sound q → id ≠ "" →
          (TasksRoute.GET q (Some id) r.2).1
          = NextResponse_json (tasks_body []) 200)).
Proof.
  intros Hinv. split; [|split].
  - intros rs. by apply serve_all_ref_integrity.
  - intros e body Hnone.
    destruct (POST_task_cases e body w)
      as [Hb|Hb Ht|Hb Ht Hn|bid Hb Ht Hl|bid b Hb Ht Hl|bid b Hb Ht Hl
         |bid b Hb Ht Hl|bid b t Hb Ht Hl];
      simpl; try (specialize (Hnone _ Hb)); try congruence;
      (split; [done|]); intros H1 H2 H3; congruence.
  - intros id b Hl r. subst r.
    destruct (DELETE_board_cases id w) as [Hn|b' Hl']; [congruence|].
    simpl. assert (b' = b) as -> by congruence.
    split; [done|]. split; [apply lookup_delete_eq|].
    split; [intros id' Hne; by apply lookup_delete_ne|].
    split; [intros tid t; apply cascade_lookup_Some|].
    split.
    + intros tid t Ht Hb. rewrite GET_task_run. simpl.
      destruct (Prisma.cascade id (tasks (db w)) !! tid) as [t'|] eqn:E;
        [|done].
      apply cascade_lookup_Some in E as [E Hne]. congruence.
    + intros Hq Hne. rewrite GET_tasks_run. simpl.
      destruct (String.eqb_spec id ""); [done|]. simpl.
      destruct (Hq (mkDb (delete id (boards (db w)))
                      (Prisma.cascade id (tasks (db w)))) id) as [Hperm _].
      simpl in Hperm. rewrite cascade_rows_empty in Hperm.
      apply Permutation_nil_r in Hperm. by rewrite Hperm.
Qed.

Lemma C3_referential_integrity_witness :
  ref_integrity
    (db (serve_all scan_forward
           [BoardsPOST (Sample.env "b1" 1000)
              (mkBoardBody (JStr "Launch") JUndefined JUndefined);
            TasksPOST Sample_create.e1 Sample_create.body_done;
            BoardDELETE "b1"]
           (fresh_world empty_db))).
Proof.
  apply (proj1 (C3_referential_integrity scan_forward (fresh_world empty_db)
                  ref_integrity_empty)).
Defined.

(** ** Update is a patch *)


Lemma tu_empty_updateData (e : Env) (body : TaskBody) :
  Prisma.tu_empty (TaskIdRoute.updateData e body) = patch_empty body.
Proof.
  unfold Prisma.tu_empty, patch_empty, TaskIdRoute.updateData. simpl.
  destruct (title body), (description body), (status body), (priority body),
    (assignedTo body), (dueDate body); reflexivity.
Qed.


(** ** Unknown task *)

(** C5: when the id names no task, Update and Delete answer NotFoundError
    after the one lookup, and the database is as it was. *)
Theorem C5_unknown_task (e : Env) (id : string) (body : TaskBody) (w : World) :
  tasks (db w) !! id = None →
  (NotFoundError (TaskIdRoute.PATCH e id body w).1
   ∧ (TaskIdRoute.PATCH e id body w).2 = logged [task_findUnique_call id] w
   ∧ db (TaskIdRoute.PATCH e id body w).2 = db w)
  ∧ (NotFoundError (TaskIdRoute.DELETE id w).1
     ∧ (TaskIdRoute.DELETE id w).2 = logged [task_findUnique_call id] w
     ∧ db (TaskIdRoute.DELETE id w).2 = db w).
Proof.
  intros Hn. split.
  - destruct (PATCH_task_cases e id body w); try congruence. by repeat split.
  - destruct (DELETE_task_cases id w); try congruence. by repeat split.
Qed.


Lemma C5_unknown_task_witness :
  NotFoundError
    (TaskIdRoute.PATCH Sample_update.e2 "ghost" Sample_update.body_in_progress
       Sample_update.w2).1
  ∧ NotFoundError (TaskIdRoute.DELETE "ghost" Sample_update.w2).1.
Proof.
  destruct (C5_unknown_task Sample_update.e2 "ghost"
              Sample_update.body_in_progress Sample_update.w2)
    as [(H1 & _) (H2 & _)].
  { vm_compute. reflexivity. }
  split; [exact H1|exact H2].
Defined.

(** ** The title check of Create *)

(** C6 fails on the code: a Create whose title is three spaces, which trims
    to the empty string, is not refused; the row is written with that
    title.  A title that is a number passes the same test and fails only
    in the ORM, as an internal error. *)
Theorem C6_blank_title_is_inserted :
  let r := TasksRoute.POST Sample_create.e1 Sample_create.body_blank_title
             Sample_create.w1 in
  let r5 := TasksRoute.POST Sample_create.e1 (Sample.body (JNum 5))
              Sample_create.w1 in
  trim "   " = ""
  ∧ r.1 = NextResponse_json
            (task_body
               (mkTask "t1" "   " None "todo" None None None 2000 2000 "b1" 0))
            201
  ∧ ¬ MissingFieldError r.1
  ∧ is_Some (tasks (db r.2) !! "t1")
  ∧ tasks (db Sample_create.w1) !! "t1" = None
  ∧ r5.1 = TasksRoute.internal_error
  ∧ ¬ MissingFieldError r5.1.
Proof.
  split; [reflexivity|]. split; [vm_compute; reflexivity|].
  split; [intros [H|H]; vm_compute in H; discriminate|].
  split; [vm_compute; eauto|]. split; [vm_compute; reflexivity|].
  split; [vm_compute; reflexivity|].
  intros [H|H]; vm_compute in H; discriminate.
Qed.

(** The sibling check: POST /api/boards refuses a name of three spaces. *)
Lemma POST_board_refuses_blank_name :
  BoardsRoute.POST (Sample.env "b2" 1000)
    (mkBoardBody (JStr "   ") JUndefined JUndefined) (fresh_world empty_db)
  = (NextResponse_json (error_body "Name is required") 400,
     fresh_world empty_db).
Proof. vm_compute. reflexivity. Qed.

(** ** Listing *)

#[global] Instance task_le_total : Total task_le.
Proof. intros t1 t2. unfold task_le. lia. Qed.

#[global] Instance task_le_trans : Transitive task_le.
Proof. intros t1 t2 t3. unfold task_le. lia. Qed.

Lemma scan_forward_sound : engine_sound scan_forward.
Proof.
  intros d b. split.
  - apply merge_sort_Permutation.
  - apply Sorted_merge_sort, _.
Qed.

Lemma scan_backward_sound : engine_sound scan_backward.
Proof.
  intros d b. split.
  - unfold scan_backward. rewrite merge_sort_Permutation.
    apply reverse_Permutation.
  - apply Sorted_merge_sort, _.
Qed.

Lemma StronglySorted_lookup {A} (R : relation A) (l : list A) (i j : nat)
    (x y : A) :
  StronglySorted R l → (i < j)%nat → l !! i = Some x → l !! j = Some y → R x y.
Proof.
  intros Hs. revert i j. induction Hs as [|a l Hs IH Hall]; intros i j Hij Hi Hj.
  - done.
  - destruct j as [|j]; [lia|]. destruct i as [|i]; simpl in *.
    + injection Hi as <-. rewrite Forall_forall in Hall. apply Hall.
      by eapply list_elem_of_lookup_2.
    + eapply (IH i j); [lia|done..].
Qed.

Lemma rows_elem_of (ts : gmap string Task) (t : Task) :
  t ∈ rows ts ↔ ∃ id, ts !! id = Some t.
Proof.
  unfold rows. rewrite list_elem_of_fmap. split.
  - intros [[id t'] [-> Hin]]. exists id. by apply elem_of_map_to_list.
  - intros [id Hl]. exists (id, t). split; [done|].
    by apply elem_of_map_to_list.
Qed.

(** C7, as stated, fails twice: a boardId that is present but empty is
    answered with MissingParameterError, and two tasks that agree on both
    sort keys come in either order, depending on how the database scans. *)
Lemma C7_empty_param_and_ties :
  MissingParameterError
    (TasksRoute.GET scan_forward (Some "") (fresh_world Sample.db2)).1
  ∧ engine_sound scan_forward
  ∧ engine_sound scan_backward
  ∧ (TasksRoute.GET scan_forward (Some "b1") (fresh_world Sample.db2)).1
    = NextResponse_json (tasks_body [Sample.write_copy; Sample.ship_it]) 200
  ∧ (TasksRoute.GET scan_backward (Some "b1") (fresh_world Sample.db2)).1
    = NextResponse_json (tasks_body [Sample.ship_it; Sample.write_copy]) 200.
Proof.
  split; [vm_compute; reflexivity|].
  split; [apply scan_forward_sound|]. split; [apply scan_backward_sound|].
  split; vm_compute; reflexivity.
Qed.

(** C7, amended: List fails with MissingParameterError when boardId is
    omitted or empty, and calls nothing; otherwise it answers with exactly
    the tasks of that board, sorted by the sequence field ascending and,
    among equal sequence values, by creation time descending.  The order
    of tasks that agree on both keys is the database's; when no two tasks
    of the board agree on both, the answer is the same for every sound
    engine. *)
Theorem C7_list_sorted (q : QueryEngine) (p : option string) (w : World) :
  engine_sound q →
  let r := TasksRoute.GET q p w in
  db r.2 = db w
  ∧ (p = None ∨ p = Some "" → MissingParameterError r.1 ∧ r.2 = w)
  ∧ (∀ b, p = Some b → b ≠ "" →
       ∃ l,
         r.1 = NextResponse_json (tasks_body l) 200
         ∧ l ≡ₚ filter (λ t, task_boardId t = b) (rows (tasks (db w)))
         ∧ (∀ t, t ∈ l ↔ task_boardId t = b ∧ ∃ id, tasks (db w) !! id = Some t)
         ∧ (∀ i j t1 t2,
              (i < j)%nat → l !! i = Some t1 → l !! j = Some t2 →
              task_order t1 ≤ task_order t2
              ∧ (task_order t1 = task_order t2 →
                 task_createdAt t2 ≤ task_createdAt t1))
         ∧ ((∀ t1 t2, t1 ∈ l → t2 ∈ l →
               task_order t1 = task_order t2 →
               task_createdAt t1 = task_createdAt t2 → t1 = t2) →
            ∀ q', engine_sound q' →
                  (TasksRoute.GET q' p w).1 = r.1)).
Proof.
  intros Hq r. subst r. rewrite GET_tasks_run.
  split; [by destruct (TasksRoute.param_missing p)|].
  split; [by intros [-> | ->]|].
  intros b -> Hne. simpl.
  destruct (String.eqb_spec b ""); [done|]. simpl.
  destruct (Hq (db w) b) as [Hperm Hsort].
  apply Sorted_StronglySorted in Hsort; [|apply _].
  exists (q (db w) b). split; [done|]. split; [done|].
  split.
  { intros t. rewrite Hperm, list_elem_of_filter, rows_elem_of. done. }
  split.
  { intros i j t1 t2 Hij H1 H2.
    pose proof (StronglySorted_lookup _ _ _ _ _ _ Hsort Hij H1 H2) as Hle.
    unfold task_le in Hle. lia. }
  intros Huniq q' Hq'. rewrite GET_tasks_run. simpl.
  destruct (String.eqb_spec b ""); [done|]. simpl.
  destruct (Hq' (db w) b) as [Hperm' Hsort'].
  apply Sorted_StronglySorted in Hsort'; [|apply _].
  f_equal. f_equal.
  apply (StronglySorted_unique_strong task_le); [|done..|by rewrite Hperm, Hperm'].
  intros t1 t2 H1 H2 H12 H21. rewrite Hperm', <- Hperm in H1.
  apply Huniq; [done..| |]; unfold task_le in *; lia.
Qed.

Lemma C7_list_sorted_witness :
  db (TasksRoute.GET scan_forward (Some "b1") (fresh_world Sample.db2)).2
  = Sample.db2.
Proof.
  apply (C7_list_sorted scan_forward (Some "b1") (fresh_world Sample.db2)
           scan_forward_sound).
Defined.

(** ** Validation and the store *)

(** C8, as stated, fails: the enumeration checks of Create and of Update
    come after a lookup in the store. *)
Lemma C8_enum_error_follows_a_read :
  let r := TasksRoute.POST Sample_create.e1 Sample_create.body_urgent
             Sample_create.w1 in
  let r' := TaskIdRoute.PATCH Sample_update.e2 "t1" Sample_create.body_urgent
              Sample_update.w2 in
  InvalidEnumError r.1
  ∧ calls Sample_create.w1 = []
  ∧ calls r.2 = [board_findUnique_call (JStr "b1")]
  ∧ InvalidEnumError r'.1
  ∧ calls Sample_update.w2 = []
  ∧ calls r'.2 = [task_findUnique_call "t1"].
Proof.
  split; [right; vm_compute; reflexivity|]. split; [reflexivity|].
  split; [vm_compute; reflexivity|].
  split; [right; vm_compute; reflexivity|]. split; [reflexivity|].
  vm_compute; reflexivity.
Qed.

(** C8, amended: a Create refused for a missing required field returns
    before any store call; a Create or an Update refused for an invalid
    enumerated value returns after exactly one store read (the board
    lookup for Create, the task lookup for Update) and no store write. *)
Theorem C8_validation_and_store_calls (e : Env) (body : TaskBody) (w : World) :
  (MissingFieldError (TasksRoute.POST e body w).1 →
   (TasksRoute.POST e body w).2 = w)
  ∧ (InvalidEnumError (TasksRoute.POST e body w).1 →
     (TasksRoute.POST e body w).2
     = logged [board_findUnique_call (boardId body)] w
     ∧ is_write (board_findUnique_call (boardId body)) = false)
  ∧ (∀ id,
       InvalidEnumError (TaskIdRoute.PATCH e id body w).1 →
       (TaskIdRoute.PATCH e id body w).2 = logged [task_findUnique_call id] w
       ∧ is_write (task_findUnique_call id) = false).
Proof.
  split; [|split].
  - intros H. pose proof (POST_task_cases e body w) as Hc.
    destruct (TasksRoute.POST e body w) as [r w']. simpl in *.
    destruct H as [-> | ->]; by inversion Hc.
  - intros H. pose proof (POST_task_cases e body w) as Hc.
    destruct (TasksRoute.POST e body w) as [r w']. simpl in *.
    destruct H as [-> | ->]; by inversion Hc.
  - intros id H. pose proof (PATCH_task_cases e id body w) as Hc.
    destruct (TaskIdRoute.PATCH e id body w) as [r w']. simpl in *.
    destruct H as [-> | ->]; by inversion Hc.
Qed.

Lemma C8_validation_and_store_calls_witness :
  (TasksRoute.POST Sample_create.e1 (Sample.body JUndefined)
     Sample_create.w1).2 = Sample_create.w1
  ∧ (TasksRoute.POST Sample_create.e1 Sample_create.body_urgent
       Sample_create.w1).2
    = logged [board_findUnique_call (JStr "b1")] Sample_create.w1.
Proof.
  split.
  - apply (proj1 (C8_validation_and_store_calls Sample_create.e1
                    (Sample.body JUndefined) Sample_create.w1)).
    right. vm_compute. reflexivity.
  - apply (proj1 (proj2 (C8_validation_and_store_calls Sample_create.e1
                           Sample_create.body_urgent Sample_create.w1))).
    right. vm_compute. reflexivity.
Defined.

(** ** Rolling back the optimistic view *)

Lemma NoDup_fmap_eq {A B} (f : A → B) (l : list A) (x y : A) :
  NoDup (f <$> l) → x ∈ l → y ∈ l → f x = f y → x = y.
Proof.
  induction l as [|a l IH]; intros Hnd Hx Hy Hf; [by inversion Hx|].
  rewrite fmap_cons in Hnd. apply NoDup_cons in Hnd as [Hna Hnd].
  apply elem_of_cons in Hx as [->|Hx]; apply elem_of_cons in Hy as [->|Hy].
  - done.
  - exfalso. apply Hna. rewrite Hf. by apply list_elem_of_fmap_2.
  - exfalso. apply Hna. rewrite <- Hf. by apply list_elem_of_fmap_2.
  - by apply IH.
Qed.

Lemma with_status_same (t : Task) (s : string) :
  with_status (with_status t s) (task_status t) = t.
Proof. by destruct t. Qed.

(** A failed status change gives back the list it started from. *)
Lemma handleStatusChange_rollback (tasks : list Task) (taskId newStatus : string) :
  NoDup (task_id <$> tasks) →
  BoardDetailPage.handleStatusChange tasks taskId newStatus fetch_failed = tasks.
Proof.
  intros Hnd. unfold BoardDetailPage.handleStatusChange.
  destruct (List.find _ tasks) as [task|] eqn:Hf; [|done].
  apply find_some in Hf as [Hin Hid].
  apply bool_decide_eq_true in Hid. apply list_elem_of_In in Hin.
  rewrite <- list_fmap_compose. rewrite <- (list_fmap_id tasks) at 2.
  apply list_fmap_ext. intros i t Ht. simpl.
  apply list_elem_of_lookup_2 in Ht.
  destruct (decide (task_id t = taskId)) as [E|E]; simpl.
  - rewrite decide_True by (by destruct t).
    assert (t = task) as -> by (eapply NoDup_fmap_eq; eauto; congruence).
    apply with_status_same.
  - by rewrite decide_False.
Qed.

(** So does a failed creation, when the temporary id is in use nowhere
    else in the list. *)
Lemma handleCreateTask_rollback (tasks : list Task) (optimisticTask : Task) :
  Forall (λ t, task_id t ≠ task_id optimisticTask) tasks →
  BoardDetailPage.handleCreateTask tasks optimisticTask fetch_failed = tasks.
Proof.
  intros Hall. unfold BoardDetailPage.handleCreateTask.
  rewrite filter_app, filter_cons_False, filter_nil, app_nil_r.
  - induction Hall as [|t l Ht Hall IH]; [done|].
    rewrite filter_cons_True by done. by rewrite IH.
  - intros H. by apply H.
Qed.

(** So does a failed board deletion on the dashboard, which keeps the list
    it started from and puts it back. *)
Lemma Dashboard_delete_rollback (boards : list Board) (c : option string) :
  Dashboard.handleDeleteConfirm boards c fetch_failed = boards.
Proof.
  unfold Dashboard.handleDeleteConfirm.
  destruct c as [b|]; [|done]. by destruct (negb (truthy (JStr b))).
Qed.

(** C9 fails on the code: when the deletion of the first of two tasks
    fails, the task is put back at the end of the list, so the view is not
    the one before the deletion. *)
Theorem C9_failed_delete_moves_the_task :
  let before := [Sample.write_copy; Sample.ship_it] in
  let after :=
    BoardDetailPage.handleDeleteConfirm before (Some "t1") fetch_failed in
  after = [Sample.ship_it; Sample.write_copy]
  ∧ after ≠ before
  ∧ after ≡ₚ before.
Proof.
  split; [vm_compute; reflexivity|]. split; [vm_compute; discriminate|].
  vm_compute. apply perm_swap.
Qed.

(** ** Board names are trimmed *)

Section trim.

Local Open Scope string_scope.

Lemma append_String (c : ascii) (a b : string) :
  String c a ++ b = String c (a ++ b).
Proof. reflexivity. Qed.

Lemma append_empty (b : string) : "" ++ b = b.
Proof. reflexivity. Qed.

Lemma trimStart_split (s : string) :
  ∃ pre, s = pre ++ trimStart s ∧ all_ws pre = true.
Proof.
  induction s as [|c s [pre [IH1 IH2]]]; simpl.
  - by exists "".
  - destruct (is_ws c) eqn:Hc.
    + exists (String c pre). simpl. rewrite Hc, IH2, append_String.
      split; [by f_equal|done].
    + by exists "".
Qed.

Lemma trimStart_first (s : string) (c : ascii) :
  first_char (trimStart s) = Some c → is_ws c = false.
Proof.
  induction s as [|a s IH]; simpl; [done|].
  destruct (is_ws a) eqn:Ha; [done|]. simpl. congruence.
Qed.

Lemma trimEnd_split (s : string) :
  ∃ post, s = trimEnd s ++ post ∧ all_ws post = true.
Proof.
  induction s as [|c s [post [IH1 IH2]]]; simpl.
  - by exists "".
  - destruct (trimEnd s) as [|c' r] eqn:Hr.
    + rewrite append_empty in IH1. subst post.
      destruct (is_ws c) eqn:Hc.
      * exists (String c s). simpl. by rewrite Hc, IH2.
      * by exists s.
    + exists post. rewrite append_String. split; [by f_equal|done].
Qed.

Lemma trimEnd_last (s : string) (c : ascii) :
  last_char (trimEnd s) = Some c → is_ws c = false.
Proof.
  induction s as [|a s IH]; simpl; [done|].
  destruct (trimEnd s) as [|c' r] eqn:Hr.
  - destruct (is_ws a) eqn:Ha; simpl; [done|congruence].
  - simpl in *. done.
Qed.

Lemma trimEnd_first (s : string) (c : ascii) :
  first_char s = Some c → is_ws c = false → first_char (trimEnd s) = Some c.
Proof.
  destruct s as [|a s]; simpl; [done|]. intros [= ->] Hc.
  destruct (trimEnd s); [by rewrite Hc|done].
Qed.

(** [trim s] is [s] without a run of white space at each end, and has
    none left at either end. *)
Lemma trim_spec (s : string) :
  ∃ pre post,
    s = pre ++ trim s ++ post
    ∧ all_ws pre = true
    ∧ all_ws post = true
    ∧ (∀ c, first_char (trim s) = Some c → is_ws c = false)
    ∧ (∀ c, last_char (trim s) = Some c → is_ws c = false).
Proof.
  destruct (trimStart_split s) as [pre [H1 H2]].
  destruct (trimEnd_split (trimStart s)) as [post [H3 H4]].
  exists pre, post. unfold trim.
  split; [by rewrite <- H3|]. split; [done|]. split; [done|].
  split; [|apply trimEnd_last].
  intros c Hc. destruct (first_char (trimStart s)) as [a|] eqn:Ha.
  - pose proof (trimStart_first _ _ Ha) as Hws.
    rewrite (trimEnd_first _ _ Ha Hws) in Hc. congruence.
  - destruct (trimStart s); simpl in *; done.
Qed.

End trim.

Lemma as_String_opt_nullish (v : jsval) (o : option string) :
  Prisma.as_String_opt (nullish_or v JNull) = Some o → stored_optional v o.
Proof. destruct v; simpl; congruence. Qed.

(** C10: the board a successful creation stores carries the supplied name
    without its leading and trailing white space, and the description and
    the colour as given, or null when they are absent. *)
Theorem C10_board_name_trimmed (e : Env) (body : BoardBody) (w w' : World)
    (b : Board) :
  BoardsRoute.POST e body w = (NextResponse_json (board_body b) 201, w') →
  boards (db w') !! board_id b = Some b
  ∧ (∃ s pre post,
       name body = JStr s
       ∧ board_name b = trim s
       ∧ s = String.append pre (String.append (board_name b) post)
       ∧ all_ws pre = true
       ∧ all_ws post = true
       ∧ (∀ c, first_char (board_name b) = Some c → is_ws c = false)
       ∧ (∀ c, last_char (board_name b) = Some c → is_ws c = false))
  ∧ stored_optional (bdescription body) (board_description b)
  ∧ stored_optional (color body) (board_color b).
Proof.
  intros H. pose proof (POST_board_cases e body w) as Hc. rewrite H in Hc.
  inversion Hc as [| |s b0 Hn Htr Hcr Hpk]; subst.
  destruct (board_of_create_Some _ _ _ Hcr) as (Hid & Hname & Hd & Hco & _).
  simpl in Hname, Hd, Hco. rewrite Hn in Hname. simpl in Hname.
  injection Hname as Hname.
  split; [simpl; rewrite Hid; apply lookup_insert_eq|].
  split.
  - destruct (trim_spec s) as (pre & post & H1 & H2 & H3 & H4 & H5).
    exists s, pre, post. rewrite <- Hname. by repeat split.
  - split; by apply as_String_opt_nullish.
Qed.

Lemma C10_board_name_trimmed_witness :
  boards (db (BoardsRoute.POST Sample_board.e0 Sample_board.body
                (fresh_world empty_db)).2) !! "b1"
  = Some Sample_board.stored
  ∧ stored_optional (JStr "#6366f1") (Some "#6366f1").
Proof.
  destruct (C10_board_name_trimmed Sample_board.e0 Sample_board.body
              (fresh_world empty_db)
              (BoardsRoute.POST Sample_board.e0 Sample_board.body
                 (fresh_world empty_db)).2
              Sample_board.stored)
    as (H1 & _ & _ & H2).
  { vm_compute. reflexivity. }
  split; [exact H1|exact H2].
Defined.

(** * Further properties of the handlers *)

(** ** The primary keys *)

Lemma key_consistent_empty : key_consistent empty_db.
Proof. split; intros id x H; simpl in H; by rewrite lookup_empty in H. Qed.

Lemma serve_key_consistent (q : QueryEngine) (r : Request) (w : World) :
  key_consistent (db w) → key_consistent (db (serve q r w).2).
Proof.
  intros [Ht Hb]. destruct r as [e body|p|id|e id body|id|e body|id]; simpl.
  - destruct (POST_task_cases e body w)
      as [| | | | | | |bid b t _ _ _ _ _ Hcr _]; try done.
    destruct (task_of_create_Some _ _ _ Hcr) as (Hid & _).
    split; [|done]. intros id t0. simpl. rewrite lookup_insert.
    case_decide; [|by apply Ht]. by intros [= <-]; subst.
  - rewrite GET_tasks_run. by destruct (TasksRoute.param_missing p).
  - by rewrite GET_task_run.
  - destruct (PATCH_task_cases e id body w) as [| | | |t t' Hl _ _ Hu];
      try done.
    destruct (task_of_update_Some _ _ _ _ Hu) as (Hid & _).
    split; [|done]. intros id0 t0. simpl. rewrite lookup_insert.
    case_decide; [|by apply Ht]. intros [= <-]. subst. rewrite Hid.
    by apply Ht.
  - destruct (DELETE_task_cases id w) as [|t Hl]; try done.
    split; [|done]. intros id0 t0. simpl. rewrite lookup_delete_Some.
    intros [_ H]. by apply Ht.
  - destruct (POST_board_cases e body w) as [| |s b _ _ Hcr _]; try done.
    destruct (board_of_create_Some _ _ _ Hcr) as (Hid & _).
    split; [done|]. intros id b0. simpl. rewrite lookup_insert.
    case_decide; [|by apply Hb]. by intros [= <-]; subst.
  - destruct (DELETE_board_cases id w) as [|b Hl]; try done.
    split; simpl.
    + intros id0 t0. rewrite cascade_lookup_Some. intros [H _]. by apply Ht.
    + intros id0 b0. rewrite lookup_delete_Some. intros [_ H]. by apply Hb.
Qed.

Lemma serve_all_key_consistent (q : QueryEngine) (rs : list Request)
    (w : World) :
  key_consistent (db w) → key_consistent (db (serve_all q rs w)).
Proof.
  revert w. induction rs as [|r rs IH]; intros w Hk; simpl; [done|].
  apply IH. by apply serve_key_consistent.
Qed.

Lemma rows_ids (d : Db) :
  key_consistent d → task_id <$> rows (tasks d) = (map_to_list (tasks d)).*1.
Proof.
  intros [Hk _]. unfold rows. rewrite <- list_fmap_compose.
  apply list_fmap_ext. intros i [id t] Hi. simpl.
  apply Hk. apply elem_of_map_to_list. by eapply list_elem_of_lookup_2.
Qed.

Lemma NoDup_fmap_filter {A B} (f : A → B) (P : A → Prop)
    `{∀ x, Decision (P x)} (l : list A) :
  NoDup (f <$> l) → NoDup (f <$> filter P l).
Proof.
  induction l as [|a l IH]; [done|]. rewrite fmap_cons, NoDup_cons.
  intros [Hna Hnd]. rewrite filter_cons. case_decide; [|by apply IH].
  rewrite fmap_cons, NoDup_cons. split; [|by apply IH].
  intros Hin. apply Hna. apply list_elem_of_fmap in Hin as (x & -> & Hx).
  apply list_elem_of_filter in Hx as [_ Hx]. by apply list_elem_of_fmap_2.
Qed.

(** In a key-consistent database a sound engine answers with tasks of
    pairwise distinct ids. *)
Lemma findMany_NoDup (q : QueryEngine) (d : Db) (b : string) :
  engine_sound q → key_consistent d → NoDup (task_id <$> q d b).
Proof.
  intros Hq Hk. destruct (Hq d b) as [Hperm _]. rewrite Hperm.
  apply NoDup_fmap_filter. rewrite rows_ids by done.
  apply NoDup_fst_map_to_list.
Qed.

(** X1: whatever requests were served since the database was empty, the
    list of a board holds no two tasks of the same id, each task of the
    list is on that board, and reading a listed task by its id gives the
    very same task. *)
Theorem X1_list_then_get (q : QueryEngine) (rs : list Request) (b : string) :
  engine_sound q → b ≠ "" →
  let w := serve_all q rs (fresh_world empty_db) in
  ∃ l,
    (TasksRoute.GET q (Some b) w).1 = NextResponse_json (tasks_body l) 200
    ∧ NoDup (task_id <$> l)
    ∧ ∀ t, t ∈ l →
           task_boardId t = b
           ∧ (TaskIdRoute.GET (task_id t) w).1
             = NextResponse_json (task_body t) 200.
Proof.
  intros Hq Hne w.
  assert (Hk : key_consistent (db w))
    by (apply serve_all_key_consistent, key_consistent_empty).
  exists (q (db w) b). rewrite GET_tasks_run. simpl.
  destruct (String.eqb_spec b ""); [done|]. simpl.
  split; [done|]. split; [by apply findMany_NoDup|].
  intros t Ht. destruct (Hq (db w) b) as [Hperm _].
  rewrite Hperm, list_elem_of_filter, rows_elem_of in Ht.
  destruct Ht as [Hb [id Hl]]. split; [done|].
  rewrite GET_task_run. simpl. destruct Hk as [Hk _].
  rewrite (Hk _ _ Hl). by rewrite Hl.
Qed.

Lemma X1_list_then_get_witness :
  ∃ l,
    (TasksRoute.GET scan_forward (Some "b1")
       (serve_all scan_forward
          [BoardsPOST Sample_board.e0 Sample_board.body;
           TasksPOST Sample_create.e1 Sample_create.body_done]
          (fresh_world empty_db))).1
    = NextResponse_json (tasks_body l) 200
    ∧ NoDup (task_id <$> l).
Proof.
  destruct (X1_list_then_get scan_forward
              [BoardsPOST Sample_board.e0 Sample_board.body;
               TasksPOST Sample_create.e1 Sample_create.body_done]
              "b1" scan_forward_sound)
    as (l & H1 & H2 & _); [discriminate|].
  exists l. split; [exact H1|exact H2].
Defined.

(** ** Creating a task *)

Lemma POST_created_boardId (e : Env) (body : TaskBody) (w w' : World) (t : Task) :
  TasksRoute.POST e body w = (NextResponse_json (task_body t) 201, w') →
  truthy (boardId body) = true.
Proof.
  unfold TasksRoute.POST. destruct (truthy (boardId body)); [done|].
  simpl. run. discriminate.
Qed.

(** X2: a task that Create answers with can be read back by its id at
    once, and the list of its board then holds it, exactly once when the
    database was key-consistent. *)
Theorem X2_create_then_read (q : QueryEngine) (e : Env) (body : TaskBody)
    (w w' : World) (t : Task) :
  engine_sound q →
  TasksRoute.POST e body w = (NextResponse_json (task_body t) 201, w') →
  (TaskIdRoute.GET (task_id t) w').1 = NextResponse_json (task_body t) 200
  ∧ ∃ l,
      (TasksRoute.GET q (Some (task_boardId t)) w').1
      = NextResponse_json (tasks_body l) 200
      ∧ t ∈ l
      ∧ (key_consistent (db w) → NoDup l).
Proof.
  intros Hq H. pose proof (POST_created_boardId _ _ _ _ _ H) as Htb.
  pose proof (POST_task_cases e body w) as Hc. rewrite H in Hc.
  inversion Hc as [| | | | | | |bid b t0 Hb Ht Hl Hs Hp Hcr Hpk]; subst.
  destruct (task_of_create_Some _ _ _ Hcr) as (Hid & Hbid & _).
  simpl in Hbid. rewrite Hb in Hbid. injection Hbid as Hbid.
  split.
  { rewrite GET_task_run. simpl. by rewrite Hid, lookup_insert_eq. }
  rewrite GET_tasks_run. simpl.
  assert (Hne : task_boardId t ≠ "").
  { rewrite <- Hbid. apply truthy_JStr. by rewrite <- Hb. }
  destruct (String.eqb_spec (task_boardId t) ""); [done|]. simpl.
  eexists. split; [done|].
  set (d' := mkDb (boards (db w)) (<[env_newId e:=t]> (tasks (db w)))).
  destruct (Hq d' (task_boardId t)) as [Hperm _].
  split.
  - rewrite Hperm, list_elem_of_filter, rows_elem_of. split; [done|].
    exists (env_newId e). simpl. apply lookup_insert_eq.
  - intros Hk. eapply NoDup_fmap_1.
    apply (findMany_NoDup q d' (task_boardId t) Hq).
    pose proof (serve_key_consistent q (TasksPOST e body) w Hk) as Hk'.
    simpl in Hk'. by rewrite H in Hk'.
Qed.

Lemma X2_create_then_read_witness :
  (TaskIdRoute.GET "t1"
     (TasksRoute.POST Sample_create.e1 Sample_create.body_done
        Sample_create.w1).2).1
  = NextResponse_json (task_body (Sample.write_copy_with "done")) 200.
Proof.
  apply (X2_create_then_read scan_forward Sample_create.e1
           Sample_create.body_done Sample_create.w1
           (TasksRoute.POST Sample_create.e1 Sample_create.body_done
              Sample_create.w1).2
           (Sample.write_copy_with "done") scan_forward_sound).
  vm_compute. reflexivity.
Defined.

(** X3: the row a successful Create writes carries the generated id, the
    board, the title and the optional texts of the request, both
    timestamps at the time of creation and a due date exactly when the
    request had a truthy one that is a valid date; the id was free, the
    board exists, and the table is the old one with this one row more. *)
Theorem X3_created_row (e : Env) (body : TaskBody) (w w' : World) (t : Task) :
  TasksRoute.POST e body w = (NextResponse_json (task_body t) 201, w') →
  task_id t = env_newId e
  ∧ boardId body = JStr (task_boardId t)
  ∧ title body = JStr (task_title t)
  ∧ stored_optional (description body) (task_description t)
  ∧ stored_optional (priority body) (task_priority t)
  ∧ stored_optional (assignedTo body) (task_assignedTo t)
  ∧ (if truthy (dueDate body)
     then env_newDate e (dueDate body) = task_dueDate t
          ∧ is_Some (task_dueDate t)
     else task_dueDate t = None)
  ∧ task_createdAt t = env_now e
  ∧ task_updatedAt t = env_now e
  ∧ tasks (db w) !! task_id t = None
  ∧ is_Some (boards (db w) !! task_boardId t)
  ∧ tasks (db w') = <[task_id t := t]> (tasks (db w))
  ∧ boards (db w') = boards (db w)
  ∧ size (tasks (db w')) = S (size (tasks (db w))).
Proof.
  intros H. pose proof (POST_task_cases e body w) as Hc. rewrite H in Hc.
  inversion Hc as [| | | | | | |bid b t0 Hb Ht Hl Hs Hp Hcr Hpk]; subst.
  destruct (task_of_create_Some _ _ _ Hcr)
    as (Hid & Hbid & Hti & _ & Hde & Hpr & Has & Hdu & Hca & Hup & _).
  simpl in *. rewrite Hid.
  assert (bid = task_boardId t) as -> by congruence.
  split; [done|]. split; [done|]. split; [done|].
  split; [by apply as_String_opt_nullish|].
  split; [by apply as_String_opt_nullish|].
  split; [by apply as_String_opt_nullish|].
  split.
  { unfold date_or_null in Hdu. destruct (truthy (dueDate body)); simpl in Hdu.
    - destruct (env_newDate e (dueDate body)) eqn:E; simplify_eq. eauto.
    - congruence. }
  repeat (split; [by rewrite ?Hl|]). by apply map_size_insert_None.
Qed.

Lemma X3_created_row_witness :
  task_title (Sample.write_copy_with "done") = "Write copy"
  ∧ size (tasks (db (TasksRoute.POST Sample_create.e1 Sample_create.body_done
                       Sample_create.w1).2))
    = S (size (tasks (db Sample_create.w1))).
Proof.
  destruct (X3_created_row Sample_create.e1 Sample_create.body_done
              Sample_create.w1
              (TasksRoute.POST Sample_create.e1 Sample_create.body_done
                 Sample_create.w1).2
              (Sample.write_copy_with "done"))
    as (_&_&_&_&_&_&_&_&_&_&_&_&_&Hsz).
  { vm_compute. reflexivity. }
  split; [reflexivity|exact Hsz].
Defined.

(** ** Errors and store calls, for every request *)

(** X4: every answer carries one of the five status codes 200, 201, 400,
    404 and 500, and whenever the code is 400 or more - a refusal, a
    missing row or an internal error - the database is as it was; the
    three reads leave it as it was in every case. *)
Theorem X4_errors_write_nothing (q : QueryEngine) (r : Request) (w : World) :
  let res := serve q r w in
  (res_status res.1 = 200 ∨ res_status res.1 = 201 ∨ res_status res.1 = 400
   ∨ res_status res.1 = 404 ∨ res_status res.1 = 500)
  ∧ (400 ≤ res_status res.1 → db res.2 = db w)
  ∧ (match r with
     | TasksGET _ | TaskGET _ => db res.2 = db w
     | _ => True
     end).
Proof.
  destruct r as [e body|p|id|e id body|id|e body|id]; simpl.
  - destruct (POST_task_cases e body w); simpl; intuition lia.
  - rewrite GET_tasks_run.
    destruct (TasksRoute.param_missing p); simpl; intuition lia.
  - rewrite GET_task_run. simpl.
    destruct (tasks (db w) !! id); simpl; intuition lia.
  - destruct (PATCH_task_cases e id body w); simpl; intuition lia.
  - destruct (DELETE_task_cases id w); simpl; intuition lia.
  - destruct (POST_board_cases e body w); simpl; intuition lia.
  - destruct (DELETE_board_cases id w); simpl; intuition lia.
Qed.

(** X5: a request makes at most one read followed by at most one write;
    an answer of 400 or 404 comes without any write, the database changes
    only when a write was made, and every write except the creation of a
    board comes right after a read of the same request. *)
Theorem X5_store_calls (q : QueryEngine) (r : Request) (w : World) :
  let res := serve q r w in
  ∃ rd wr,
    calls res.2 = (calls w ++ rd ++ wr)%list
    ∧ (length rd ≤ 1)%nat
    ∧ (length wr ≤ 1)%nat
    ∧ Forall (λ c, is_write c = false) rd
    ∧ Forall (λ c, is_write c = true) wr
    ∧ (res_status res.1 = 400 ∨ res_status res.1 = 404 → wr = [])
    ∧ (wr = [] → db res.2 = db w)
    ∧ (wr ≠ [] → (∀ e body, r ≠ BoardsPOST e body) → length rd = 1%nat).
Proof.
  assert (Hnil : ∀ l : list StoreCall, l = (l ++ [] ++ [])%list)
    by (intros l; by rewrite !app_nil_r).
  destruct r as [e body|p|id|e id body|id|e body|id]; simpl.
  - destruct (POST_task_cases e body w); simpl;
      [exists [], []|exists [], []
      |exists [board_findUnique_call (boardId body)], []
      |exists [board_findUnique_call (boardId body)], []
      |exists [board_findUnique_call (boardId body)], []
      |exists [board_findUnique_call (boardId body)], []
      |exists [board_findUnique_call (boardId body)], [task_create_call]
      |exists [board_findUnique_call (boardId body)], [task_create_call]];
      simpl; rewrite ?app_nil_r;
      repeat split; auto; try lia; try done; intros [?|?]; done.
  - rewrite GET_tasks_run. destruct (TasksRoute.param_missing p); simpl;
      [exists [], []|exists [task_findMany_call (default "" p)], []];
      simpl; rewrite ?app_nil_r; repeat split; auto; done.
  - rewrite GET_task_run. exists [task_findUnique_call id], []. simpl.
    repeat split; auto; done.
  - destruct (PATCH_task_cases e id body w); simpl;
      [exists [task_findUnique_call id], []
      |exists [task_findUnique_call id], []
      |exists [task_findUnique_call id], []
      |exists [task_findUnique_call id], [task_update_call id]
      |exists [task_findUnique_call id], [task_update_call id]];
      simpl; repeat split; auto; try done; intros [?|?]; done.
  - destruct (DELETE_task_cases id w); simpl;
      [exists [task_findUnique_call id], []
      |exists [task_findUnique_call id], [task_delete_call id]];
      simpl; repeat split; auto; try done; intros [?|?]; done.
  - destruct (POST_board_cases e body w); simpl;
      [exists [], []|exists [], [board_create_call]
      |exists [], [board_create_call]];
      simpl; rewrite ?app_nil_r; repeat split; auto; try done;
      try (intros [?|?]; done).
    + intros _ Hno. by destruct (Hno e body).
    + intros _ Hno. by destruct (Hno e body).
  - destruct (DELETE_board_cases id w); simpl;
      [exists [board_findUnique_call (JStr id)], []
      |exists [board_findUnique_call (JStr id)], [board_delete_call id]];
      simpl; repeat split; auto; try done; intros [?|?]; done.
Qed.

(** ** Updating and deleting a task *)

(** X6: the status of an existing task can be moved to any of the three
    statuses from whatever it was, in one step: the patch the page sends
    for a status change always succeeds, and the row it leaves is the old
    one with the new status and the time of the update. *)
Theorem X6_any_status_transition (e : Env) (id : string) (w : World)
    (t : Task) (s : string) :
  tasks (db w) !! id = Some t →
  s ∈ validStatuses →
  TaskIdRoute.PATCH e id (BoardDetailRequests.status_body s) w
  = (NextResponse_json
       (task_body (touch (with_status t s) (env_now e))) 200,
     mkWorld
       (mkDb (boards (db w))
          (<[id := touch (with_status t s) (env_now e)]> (tasks (db w))))
       (calls w ++ [task_findUnique_call id; task_update_call id])%list).
Proof.
  intros Hl Hs.
  destruct (PATCH_task_cases e id (BoardDetailRequests.status_body s) w)
    as [Hn|t0 Hl0 Hr|t0 Hl0 _ Hr|t0 Hl0 _ _ Hu|t0 t' Hl0 _ _ Hu];
    try congruence.
  - unfold status_rejected in Hr. simpl in Hr.
    by rewrite bool_decide_eq_true_2 in Hr.
  - done.
  - done.
  - assert (t0 = t) as -> by congruence.
    injection Hu as <-. done.
Qed.

Lemma X6_any_status_transition_witness :
  (TaskIdRoute.PATCH Sample_update.e2 "t1"
     (BoardDetailRequests.status_body "done")
     (fresh_world
        (mkDb {[ "b1" := Sample.launch ]}
           {[ "t1" := Sample.write_copy_with "done" ]}))).1
  = NextResponse_json
      (task_body (touch (Sample.write_copy_with "done") 3000)) 200.
Proof.
  rewrite (X6_any_status_transition Sample_update.e2 "t1" _
             (Sample.write_copy_with "done") "done").
  - reflexivity.
  - vm_compute. reflexivity.
  - apply (bool_decide_unpack _). vm_compute. exact I.
Defined.

Lemma column_provided_String (old : string) (v : jsval) :
  is_Some (Prisma.column old (provided v) Prisma.as_String_set)
  ↔ v = JUndefined ∨ ∃ s, v = JStr s ∨ v = JSet (JStr s).
Proof.
  destruct v as [| |b|n|s| |[| |b|n|s| |v]]; simpl; split; intros H;
    try (by right; eauto); try (by left); try (by eauto);
    try (by destruct H as [?|[? [?|?]]]); by destruct H.
Qed.

Lemma column_provided_String_opt (old : option string) (v : jsval) :
  is_Some (Prisma.column old (provided v) Prisma.as_String_opt_set)
  ↔ v = JUndefined ∨ v = JNull ∨ v = JSet JNull
    ∨ ∃ s, v = JStr s ∨ v = JSet (JStr s).
Proof.
  destruct v as [| |b|n|s| |[| |b|n|s| |v]]; simpl; split; intros H;
    try (by right; right; right; eauto); try (by right; right; left);
    try (by right; left); try (by left); try (by eauto);
    try (by destruct H as [?|[?|[?|[? [?|?]]]]]); by destruct H.
Qed.

Lemma task_of_update_is_Some (now : Z) (t : Task) (d : Prisma.TaskUpdateInput) :
  is_Some (Prisma.task_of_update now t d)
  ↔ is_Some (Prisma.column (task_title t) (Prisma.tu_title d)
               Prisma.as_String_set)
    ∧ is_Some (Prisma.column (task_description t) (Prisma.tu_description d)
                 Prisma.as_String_opt_set)
    ∧ is_Some (Prisma.column (task_status t) (Prisma.tu_status d)
                 Prisma.as_String_set)
    ∧ is_Some (Prisma.column (task_priority t) (Prisma.tu_priority d)
                 Prisma.as_String_opt_set)
    ∧ is_Some (Prisma.column (task_assignedTo t) (Prisma.tu_assignedTo d)
                 Prisma.as_String_opt_set)
    ∧ is_Some (Prisma.column (task_dueDate t) (Prisma.tu_dueDate d)
                 Prisma.as_DateTime_opt).
Proof.
  unfold Prisma.task_of_update.
  destruct (Prisma.column (task_title t) _ _);
    destruct (Prisma.column (task_description t) _ _);
    destruct (Prisma.column (task_status t) _ _);
    destruct (Prisma.column (task_priority t) _ _);
    destruct (Prisma.column (task_assignedTo t) _ _);
    destruct (Prisma.column (task_dueDate t) _ _); simpl;
    rewrite !is_Some_alt; simpl; tauto.
Qed.

(** The answer of PATCH is a success exactly when no check fires and the
    ORM accepts the update. *)
Lemma PATCH_ok_iff (e : Env) (id : string) (body : TaskBody) (w : World)
    (t : Task) :
  tasks (db w) !! id = Some t →
  (∃ t', (TaskIdRoute.PATCH e id body w).1
         = NextResponse_json (task_body t') 200)
  ↔ status_rejected body = false
    ∧ priority_rejected body = false
    ∧ is_Some (Prisma.task_of_update (env_now e) t
                 (TaskIdRoute.updateData e body)).
Proof.
  intros Hl.
  destruct (PATCH_task_cases e id body w)
    as [Hn|t0 Hl0 Hr|t0 Hl0 Hs Hr|t0 Hl0 Hs Hp Hu|t0 t' Hl0 Hs Hp Hu];
    try congruence; assert (t0 = t) as -> by congruence; simpl.
  - split; [by intros [? ?]|]. intros (H & _). congruence.
  - split; [by intros [? ?]|]. intros (_ & H & _). congruence.
  - split; [by intros [? ?]|]. intros (_ & _ & H). rewrite Hu in H.
    by destruct H.
  - split; [|by eauto]. intros _. rewrite Hu. eauto.
Qed.

(** X7: for a patch whose texts the database can store (none holds
    U+0000) and whose title, description and assignee are not objects of
    another shape than [{set: v}], an Update of an existing task succeeds
    exactly when every key the patch carries is well formed: the title a
    string or [{set: string}], the status one of the three, the priority
    null or one of the three, the description and the assignee null,
    [{set: null}], a string or [{set: string}], and a truthy due date a
    date that parses and that the database holds. *)
Theorem X7_patch_accepted (e : Env) (id : string) (body : TaskBody)
    (w : World) (t : Task) :
  tasks (db w) !! id = Some t →
  storable (title body) → storable (description body) →
  storable (assignedTo body) →
  title body ≠ JObj → description body ≠ JObj → assignedTo body ≠ JObj →
  (∃ t', (TaskIdRoute.PATCH e id body w).1
         = NextResponse_json (task_body t') 200)
  ↔ (title body = JUndefined
     ∨ ∃ s, title body = JStr s ∨ title body = JSet (JStr s))
    ∧ (status body = JUndefined
       ∨ ∃ s, status body = JStr s ∧ s ∈ validStatuses)
    ∧ (priority body = JUndefined ∨ priority body = JNull
       ∨ ∃ s, priority body = JStr s ∧ s ∈ validPriorities)
    ∧ (description body = JUndefined ∨ description body = JNull
       ∨ description body = JSet JNull
       ∨ ∃ s, description body = JStr s ∨ description body = JSet (JStr s))
    ∧ (assignedTo body = JUndefined ∨ assignedTo body = JNull
       ∨ assignedTo body = JSet JNull
       ∨ ∃ s, assignedTo body = JStr s ∨ assignedTo body = JSet (JStr s))
    ∧ (truthy (dueDate body) = true →
       is_Some (env_newDate e (dueDate body))).
Proof.
  intros Hl _ _ _ _ _ _. rewrite (PATCH_ok_iff e id body w t Hl).
  rewrite task_of_update_is_Some. simpl.
  rewrite !column_provided_String, !column_provided_String_opt.
  assert (Hd : is_Some (Prisma.column (task_dueDate t)
                          (if is_undefined (dueDate body) then None
                           else Some (date_or_null e (dueDate body)))
                          Prisma.as_DateTime_opt)
               ↔ (truthy (dueDate body) = true →
                  is_Some (env_newDate e (dueDate body)))).
  { unfold date_or_null.
    destruct (dueDate body) as [| |[]|n|s| |v]; simpl; try (by split; eauto);
      try (destruct (n =? 0); simpl);
      try (destruct (String.eqb s ""); simpl);
      try (by split; eauto);
      destruct (env_newDate e _); simpl; split; eauto;
      try (intros H; by destruct H);
      intros H; by destruct (H eq_refl). }
  rewrite Hd. unfold status_rejected, priority_rejected.
  split.
  - intros (Hs & Hp & Hti & Hde & Hst & Hpr & Has & Hdu).
    repeat split; try done.
    + destruct Hst as [?|[s [Es|Es]]]; [by left|right|].
      * exists s. split; [done|].
        rewrite Es in Hs. simpl in Hs. apply negb_false_iff in Hs.
        by apply bool_decide_eq_true in Hs.
      * by rewrite Es in Hs.
    + destruct Hpr as [?|[?|[Es|[s [Es|Es]]]]];
        [by left|by right; left| |right; right|].
      * by rewrite Es in Hp.
      * exists s. split; [done|].
        rewrite Es in Hp. simpl in Hp. apply negb_false_iff in Hp.
        by apply bool_decide_eq_true in Hp.
      * by rewrite Es in Hp.
  - intros (Hti & Hst & Hpr & Hde & Has & Hdu).
    repeat split; try done.
    + destruct Hst as [->|[s [-> Hin]]]; [done|]. simpl.
      by rewrite bool_decide_eq_true_2.
    + destruct Hpr as [->|[->|[s [-> Hin]]]]; [done..|]. simpl.
      by rewrite bool_decide_eq_true_2.
    + destruct Hst as [?|[s [? _]]]; eauto.
    + destruct Hpr as [?|[?|[s [? _]]]]; eauto 6.
Qed.

Lemma X7_patch_accepted_witness :
  ∃ t', (TaskIdRoute.PATCH Sample_update.e2 "t1"
           (mkTaskBody JUndefined (JSet (JStr "Final copy")) (JStr "Short")
              (JStr "in_progress") JUndefined (JSet JNull) JUndefined)
           Sample_update.w2).1
        = NextResponse_json (task_body t') 200.
Proof.
  apply (X7_patch_accepted Sample_update.e2 "t1"
           (mkTaskBody JUndefined (JSet (JStr "Final copy")) (JStr "Short")
              (JStr "in_progress") JUndefined (JSet JNull) JUndefined)
           Sample_update.w2 Sample.write_copy).
  - vm_compute. reflexivity.
  - intros s [= <-]. apply (bool_decide_unpack _). vm_compute. exact I.
  - intros s [= <-]. apply (bool_decide_unpack _). vm_compute. exact I.
  - intros s H. discriminate H.
  - discriminate.
  - discriminate.
  - discriminate.
  - split; [right; exists "Final copy"; by right|].
    split.
    { right. exists "in_progress". split; [reflexivity|].
      apply (bool_decide_unpack _). vm_compute. exact I. }
    split; [by left|].
    split; [right; right; right; exists "Short"; by left|].
    split; [by right; right; left|].
    intros H. discriminate H.
Defined.

Lemma column_again {A B} (old new : A) (x : option B) (check : B → option A) :
  Prisma.column old x check = Some new → Prisma.column new x check = Some new.
Proof. by destruct x. Qed.

(** X8: sending the same patch a second time changes nothing but the time
    of the update, and that only when the patch carries a key: the second
    answer is the row of the first, with the new updatedAt unless the
    patch is empty (the two requests reading a due date the same way). *)
Theorem X8_patch_twice (e1 e2 : Env) (id : string) (body : TaskBody)
    (w w1 : World) (t1 : Task) :
  TaskIdRoute.PATCH e1 id body w = (NextResponse_json (task_body t1) 200, w1) →
  env_newDate e2 (dueDate body) = env_newDate e1 (dueDate body) →
  let t2 := if patch_empty body then t1 else touch t1 (env_now e2) in
  (TaskIdRoute.PATCH e2 id body w1).1 = NextResponse_json (task_body t2) 200
  ∧ tasks (db (TaskIdRoute.PATCH e2 id body w1).2) !! id = Some t2.
Proof.
  intros H Hdate t2.
  pose proof (PATCH_task_cases e1 id body w) as Hc. rewrite H in Hc.
  inversion Hc as [| | | |t t' Hl Hs Hp Hu]; subst.
  destruct (task_of_update_Some _ _ _ _ Hu)
    as (_&_&_&_&_& Hti & Hde & Hst & Hpr & Has & Hdu).
  apply column_again in Hti, Hde, Hst, Hpr, Has, Hdu.
  assert (Hu2 : Prisma.task_of_update (env_now e2) t1
                  (TaskIdRoute.updateData e2 body)
                = Some t2).
  { unfold Prisma.task_of_update. rewrite tu_empty_updateData. simpl in *.
    assert (Hd : date_or_null e2 (dueDate body) = date_or_null e1 (dueDate body))
      by (unfold date_or_null; by rewrite Hdate).
    rewrite Hd, Hti, Hde, Hst, Hpr, Has, Hdu. simpl. subst t2.
    destruct (patch_empty body); [by destruct t1|done]. }
  set (w1 := mkWorld _ _).
  assert (Hl1 : tasks (db w1) !! id = Some t1) by apply lookup_insert_eq.
  destruct (PATCH_task_cases e2 id body w1)
    as [Hn|t0 Hl0 Hr|t0 Hl0 _ Hr|t0 Hl0 _ _ Hu0|t0 t0' Hl0 _ _ Hu0];
    try congruence; assert (t0 = t1) as -> by congruence.
  rewrite Hu2 in Hu0. injection Hu0 as <-. simpl.
  split; [done|apply lookup_insert_eq].
Qed.

Lemma X8_patch_twice_witness :
  (TaskIdRoute.PATCH (Sample.env "unused" 4000) "t1"
     Sample_update.body_in_progress
     (TaskIdRoute.PATCH Sample_update.e2 "t1" Sample_update.body_in_progress
        Sample_update.w2).2).1
  = NextResponse_json
      (task_body
         (touch (mkTask "t1" "Write copy" None "in_progress" None None None
                   2000 3000 "b1" 0) 4000)) 200.
Proof.
  apply (X8_patch_twice Sample_update.e2 (Sample.env "unused" 4000) "t1"
           Sample_update.body_in_progress Sample_update.w2).
  - vm_compute. reflexivity.
  - reflexivity.
Defined.

(** X9: the Delete of an existing task answers with the row as it was
    stored and removes that row and no other; the id is then unknown to
    the read, to Update and to a second Delete, and every other task
    reads as before. *)
Theorem X9_delete_then_gone (id : string) (w : World) (t : Task) :
  tasks (db w) !! id = Some t →
  let r := TaskIdRoute.DELETE id w in
  r.1 = NextResponse_json (task_body t) 200
  ∧ tasks (db r.2) = delete id (tasks (db w))
  ∧ boards (db r.2) = boards (db w)
  ∧ S (size (tasks (db r.2))) = size (tasks (db w))
  ∧ NotFoundError (TaskIdRoute.GET id r.2).1
  ∧ NotFoundError (TaskIdRoute.DELETE id r.2).1
  ∧ (∀ e body, NotFoundError (TaskIdRoute.PATCH e id body r.2).1)
  ∧ (∀ id', id' ≠ id → (TaskIdRoute.GET id' r.2).1 = (TaskIdRoute.GET id' w).1).
Proof.
  intros Hl r. subst r.
  destruct (DELETE_task_cases id w) as [Hn|t0 Hl0]; [congruence|].
  assert (t0 = t) as -> by congruence. simpl.
  set (w' := mkWorld _ _).
  assert (Hgone : tasks (db w') !! id = None) by apply lookup_delete_eq.
  split; [done|]. split; [done|]. split; [done|].
  split.
  { rewrite map_size_delete_Some by eauto.
    assert (size (tasks (db w)) ≠ 0%nat).
    { intros Hz. apply map_size_empty_inv in Hz. rewrite Hz in Hl.
      by rewrite lookup_empty in Hl. }
    lia. }
  split; [rewrite GET_task_run; simpl; by rewrite lookup_delete_eq|].
  split; [by destruct (DELETE_task_cases id w'); [|congruence]|].
  split.
  { intros e body.
    by destruct (PATCH_task_cases e id body w'); [|congruence..]. }
  intros id' Hne. rewrite !GET_task_run. simpl.
  by rewrite lookup_delete_ne.
Qed.

Lemma X9_delete_then_gone_witness :
  (TaskIdRoute.DELETE "t1" Sample_update.w2).1
  = NextResponse_json (task_body Sample.write_copy) 200.
Proof.
  apply (X9_delete_then_gone "t1" Sample_update.w2 Sample.write_copy).
  vm_compute. reflexivity.
Defined.

(** ** Creating a board *)

Lemma name_refused_iff (v : jsval) :
  negb (truthy v) || not_a_string v || String.eqb (BoardsRoute.trim_of v) ""
  = true
  ↔ ∀ s, v = JStr s → trim s = "".
Proof.
  destruct v as [| |b|n|s| |?]; simpl; try (split; [by intros _ s'|done]).
  - rewrite orb_true_r. split; [by intros _ s'|done].
  - rewrite orb_true_r. split; [by intros _ s'|done].
  - rewrite orb_false_r, negb_involutive. split.
    + intros H s' [= <-]. apply orb_true_iff in H as [H|H].
      * apply String.eqb_eq in H. by subst.
      * by apply String.eqb_eq.
    + intros H. apply orb_true_iff. right. apply String.eqb_eq. by apply H.
Qed.

Lemma as_String_opt_nullish_is_Some (v : jsval) :
  is_Some (Prisma.as_String_opt (nullish_or v JNull))
  ↔ v = JUndefined ∨ v = JNull ∨ ∃ s, v = JStr s.
Proof.
  destruct v; simpl; split; intros H;
    try (by right; right; eauto); try (by right; left); try (by left);
    try (by eauto); try (by destruct H as [?|[?|[? ?]]]); by destruct H.
Qed.

(** X10: the creation of a board is refused with "Name is required"
    exactly when the name is not a string or is blank once trimmed, and
    then nothing is called.  It succeeds only when the name is a string
    that is not blank, the description and the colour are strings, null
    or absent, and the generated id is free; and it does succeed then,
    when the database can store the three texts (none holds U+0000). *)
Theorem X10_board_post_outcomes (e : Env) (body : BoardBody) (w : World) :
  let r := BoardsRoute.POST e body w in
  let accepted :=
    (∃ s, name body = JStr s ∧ trim s ≠ "")
    ∧ (bdescription body = JUndefined ∨ bdescription body = JNull
       ∨ ∃ s, bdescription body = JStr s)
    ∧ (color body = JUndefined ∨ color body = JNull
       ∨ ∃ s, color body = JStr s)
    ∧ boards (db w) !! env_newId e = None in
  (r.1 = NextResponse_json (error_body "Name is required") 400
   ↔ ∀ s, name body = JStr s → trim s = "")
  ∧ (r.1 = NextResponse_json (error_body "Name is required") 400 → r.2 = w)
  ∧ ((∃ b, r.1 = NextResponse_json (board_body b) 201) → accepted)
  ∧ (storable (name body) → storable (bdescription body) →
     storable (color body) → accepted →
     ∃ b, r.1 = NextResponse_json (board_body b) 201).
Proof.
  intros r accepted. subst r accepted.
  assert (Hdata : is_Some (Prisma.board_of_create e (board_data body))
                  ↔ (bdescription body = JUndefined ∨ bdescription body = JNull
                     ∨ ∃ s, bdescription body = JStr s)
                    ∧ (color body = JUndefined ∨ color body = JNull
                       ∨ ∃ s, color body = JStr s)).
  { rewrite <- !as_String_opt_nullish_is_Some.
    unfold Prisma.board_of_create, board_data. simpl.
    destruct (Prisma.as_String_opt (nullish_or (bdescription body) JNull));
      destruct (Prisma.as_String_opt (nullish_or (color body) JNull)); simpl;
      rewrite !is_Some_alt; simpl; tauto. }
  destruct (POST_board_cases e body w) as [Hg|s Hn Htr Hth|s b Hn Htr Hcr Hpk];
    simpl.
  - pose proof (proj1 (name_refused_iff _) Hg) as Hg'.
    split; [done|]. split; [done|].
    split; [by intros [? ?]|]. intros _ _ _ ([s [Hs Hne]] & _).
    by destruct Hne, (Hg' s).
  - split.
    { split; [done|]. intros H. by destruct Htr, (H s). }
    split; [done|]. split; [by intros [? ?]|].
    intros _ _ _ (_ & Hd & Hc & Hfree). destruct Hth as [Hth|Hth].
    + assert (Hs : is_Some (Prisma.board_of_create e (board_data body)))
        by (by apply Hdata).
      rewrite Hth in Hs. by destruct Hs.
    + rewrite Hfree in Hth. by destruct Hth.
  - split.
    { split; [done|]. intros H. by destruct Htr, (H s). }
    split; [done|]. split; [|by eauto]. intros _.
    split; [by eauto|].
    assert (Hs : is_Some (Prisma.board_of_create e (board_data body)))
      by (rewrite Hcr; eauto).
    apply Hdata in Hs as [Hd Hc]. done.
Qed.

(** *** Trimming twice *)

Lemma trimStart_id (s : string) :
  (∀ c, first_char s = Some c → is_ws c = false) → trimStart s = s.
Proof.
  destruct s as [|c s]; simpl; [done|]. intros H. by rewrite (H c).
Qed.

Lemma trimEnd_idem (s : string) : trimEnd (trimEnd s) = trimEnd s.
Proof.
  induction s as [|c s IH]; simpl; [done|].
  destruct (trimEnd s) as [|c' r] eqn:Hr.
  - destruct (is_ws c) eqn:Hc; simpl; [done|]. by rewrite Hc.
  - change (trimEnd (String c (String c' r)))
      with (match trimEnd (String c' r) with
            | EmptyString =>
                if is_ws c then EmptyString else String c EmptyString
            | r0 => String c r0
            end).
    by rewrite IH.
Qed.

Lemma trim_idem (s : string) : trim (trim s) = trim s.
Proof.
  destruct (trim_spec s) as (_ & _ & _ & _ & _ & Hfirst & _).
  unfold trim at 1. rewrite (trimStart_id (trim s)) by done.
  unfold trim. apply trimEnd_idem.
Qed.

Lemma or_undefined_nullish (s : string) :
  Prisma.as_String_opt (nullish_or (json_opt (or_undefined s)) JNull)
  = Some (or_undefined s).
Proof. unfold or_undefined. by destruct (String.eqb s ""). Qed.

Lemma json_opt_nullish (o : option string) :
  Prisma.as_String_opt (nullish_or (json_opt o) JNull) = Some o.
Proof. by destruct o. Qed.

(** X11: the board form submits nothing when the name is blank; what it
    does submit the server never refuses, and with a free id it stores the
    board with the trimmed name just as submitted, the trimmed description
    (none when blank) and the chosen colour (none when none was chosen). *)
Theorem X11_board_form_to_server (st : CreateBoardForm.FormState) (e : Env)
    (w : World) :
  (trim (CreateBoardForm.name_input st) = "" →
   CreateBoardForm.handleSubmit st = inl "Board name is required")
  ∧ ∀ data,
      CreateBoardForm.handleSubmit st = inr data →
      let r := BoardsRoute.POST e (DashboardRequests.create_body data) w in
      let b := mkBoard (env_newId e) (trim (CreateBoardForm.name_input st))
                 (or_undefined (trim (CreateBoardForm.description_input st)))
                 (CreateBoardForm.selectedColor st) (env_now e) (env_now e) in
      res_status r.1 ≠ 400
      ∧ (boards (db w) !! env_newId e = None →
         r.1 = NextResponse_json (board_body b) 201
         ∧ boards (db r.2) !! env_newId e = Some b).
Proof.
  unfold CreateBoardForm.handleSubmit. split.
  { intros H. by rewrite H. }
  intros data Hsub.
  destruct (String.eqb_spec (trim (CreateBoardForm.name_input st)) "")
    as [|Hne]; [done|].
  injection Hsub as <-. simpl.
  assert (Hbc : Prisma.board_of_create e
                  (board_data
                     (DashboardRequests.create_body
                        (CreateBoardForm.mkSubmission
                           (trim (CreateBoardForm.name_input st))
                           (or_undefined
                              (trim (CreateBoardForm.description_input st)))
                           (CreateBoardForm.selectedColor st))))
                = Some (mkBoard (env_newId e)
                          (trim (CreateBoardForm.name_input st))
                          (or_undefined
                             (trim (CreateBoardForm.description_input st)))
                          (CreateBoardForm.selectedColor st)
                          (env_now e) (env_now e))).
  { unfold Prisma.board_of_create, board_data. simpl.
    rewrite trim_idem, or_undefined_nullish, json_opt_nullish. done. }
  destruct (POST_board_cases e
              (DashboardRequests.create_body
                 (CreateBoardForm.mkSubmission
                    (trim (CreateBoardForm.name_input st))
                    (or_undefined (trim (CreateBoardForm.description_input st)))
                    (CreateBoardForm.selectedColor st))) w)
    as [Hg|s Hn Htr [Hth|Hth]|s b Hn Htr Hcr Hpk]; simpl.
  - pose proof (proj1 (name_refused_iff _) Hg _ eq_refl) as Hg'.
    simpl in Hg'. rewrite trim_idem in Hg'. done.
  - congruence.
  - split; [done|]. intros Hfree. rewrite Hfree in Hth. by destruct Hth.
  - split; [done|]. intros _. rewrite Hbc in Hcr. injection Hcr as <-.
    split; [done|]. apply lookup_insert_eq.
Qed.

Lemma X11_board_form_to_server_witness :
  (BoardsRoute.POST Sample_board.e0
     (DashboardRequests.create_body
        (CreateBoardForm.mkSubmission "Launch" None (Some "#ef4444")))
     (fresh_world empty_db)).1
  = NextResponse_json
      (board_body (mkBoard "b1" "Launch" None (Some "#ef4444") 1000 1000)) 201.
Proof.
  apply (proj2 (X11_board_form_to_server
                  (CreateBoardForm.mkFormState " Launch " "  " (Some "#ef4444"))
                  Sample_board.e0 (fresh_world empty_db))
           (CreateBoardForm.mkSubmission "Launch" None (Some "#ef4444"))).
  - vm_compute. reflexivity.
  - vm_compute. reflexivity.
Defined.

(** ** From the task form to the server *)

Lemma truthy_json_opt_or_undefined (s : string) :
  truthy (json_opt (or_undefined s)) = negb (String.eqb s "").
Proof.
  unfold or_undefined. destruct (String.eqb s "") eqn:E; simpl; [done|].
  by rewrite E.
Qed.

Lemma form_task_of_create (st : CreateTaskForm.FormState) (boardId0 : string)
    (e : Env) :
  (CreateTaskForm.dueDate_input st ≠ "" →
   is_Some (env_newDate e (JStr (CreateTaskForm.dueDate_input st)))) →
  Prisma.task_of_create e
    (TasksRoute.data e
       (BoardDetailRequests.create_body boardId0
          (CreateTaskForm.mkSubmission
             (trim (CreateTaskForm.title_input st))
             (or_undefined (trim (CreateTaskForm.description_input st)))
             (or_undefined (CreateTaskForm.priority_input st))
             (or_undefined (trim (CreateTaskForm.assignedTo_input st)))
             (or_undefined (CreateTaskForm.dueDate_input st)))))
  = Some (mkTask (env_newId e)
            (trim (CreateTaskForm.title_input st))
            (or_undefined (trim (CreateTaskForm.description_input st)))
            "todo"
            (or_undefined (CreateTaskForm.priority_input st))
            (or_undefined (trim (CreateTaskForm.assignedTo_input st)))
            (if String.eqb (CreateTaskForm.dueDate_input st) "" then None
             else env_newDate e (JStr (CreateTaskForm.dueDate_input st)))
            (env_now e) (env_now e) boardId0 (env_order_default e)).
Proof.
  intros Hdate. unfold Prisma.task_of_create, TasksRoute.data. simpl.
  rewrite !or_undefined_nullish. simpl.
  unfold date_or_null. rewrite truthy_json_opt_or_undefined.
  destruct (String.eqb_spec (CreateTaskForm.dueDate_input st) "") as [E|E];
    simpl; [done|].
  unfold or_undefined.
  destruct (String.eqb_spec (CreateTaskForm.dueDate_input st) ""); [done|].
  simpl. destruct (Hdate E) as [d ->]. done.
Qed.

(** X12: the task form submits nothing when the title is blank; what it
    does submit for an existing board, with the priority left empty or
    set to one of the three, the server never refuses, and with a free id
    and a readable date it stores the task with status "todo", the
    trimmed title and the trimmed optional texts (none when blank). *)
Theorem X12_task_form_to_server (st : CreateTaskForm.FormState)
    (boardId0 : string) (e : Env) (w : World) (b : Board) :
  (trim (CreateTaskForm.title_input st) = "" →
   CreateTaskForm.handleSubmit st = inl "Task title is required")
  ∧ ∀ data,
      CreateTaskForm.handleSubmit st = inr data →
      boardId0 ≠ "" →
      boards (db w) !! boardId0 = Some b →
      (CreateTaskForm.priority_input st = ""
       ∨ CreateTaskForm.priority_input st ∈ validPriorities) →
      let r := TasksRoute.POST e
                 (BoardDetailRequests.create_body boardId0 data) w in
      let t := mkTask (env_newId e)
                 (trim (CreateTaskForm.title_input st))
                 (or_undefined (trim (CreateTaskForm.description_input st)))
                 "todo"
                 (or_undefined (CreateTaskForm.priority_input st))
                 (or_undefined (trim (CreateTaskForm.assignedTo_input st)))
                 (if String.eqb (CreateTaskForm.dueDate_input st) "" then None
                  else env_newDate e (JStr (CreateTaskForm.dueDate_input st)))
                 (env_now e) (env_now e) boardId0 (env_order_default e) in
      res_status r.1 ≠ 400
      ∧ res_status r.1 ≠ 404
      ∧ (tasks (db w) !! env_newId e = None →
         (CreateTaskForm.dueDate_input st ≠ "" →
          is_Some (env_newDate e (JStr (CreateTaskForm.dueDate_input st)))) →
         r.1 = NextResponse_json (task_body t) 201
         ∧ tasks (db r.2) !! env_newId e = Some t).
Proof.
  unfold CreateTaskForm.handleSubmit. split.
  { intros H. by rewrite H. }
  intros data Hsub Hb Hl Hprio.
  destruct (String.eqb_spec (trim (CreateTaskForm.title_input st)) "")
    as [|Hne]; [done|].
  injection Hsub as <-. 
  set (body := BoardDetailRequests.create_body boardId0 _).
  assert (Htb : truthy (boardId body) = true) by (by apply truthy_JStr).
  assert (Htt : truthy (title body) = true) by (by apply truthy_JStr).
  destruct (POST_task_cases e body w)
    as [Hx|_ Hx|_ _ Hx|bid Hx _ Hn|bid b' _ _ _ Hx _|bid b' _ _ _ _ Hp Hi
       |bid b' _ _ _ _ _ Hth|bid b' t0 _ _ _ _ _ Hcr Hpk];
    simpl; try congruence; try done.
  - injection Hx as <-. congruence.
  - exfalso. simpl in Hp, Hi. rewrite truthy_json_opt_or_undefined in Hp.
    unfold or_undefined in Hi.
    destruct (String.eqb_spec (CreateTaskForm.priority_input st) "") as [|E];
      [done|].
    simpl in Hi. destruct Hprio as [?|Hin]; [done|].
    by rewrite bool_decide_eq_true_2 in Hi.
  - split; [done|]. split; [done|]. intros Hfree Hdate. exfalso.
    destruct Hth as [Hth|Hth].
    + subst body. by rewrite form_task_of_create in Hth.
    + rewrite Hfree in Hth. by destruct Hth.
  - split; [done|]. split; [done|]. intros Hfree Hdate.
    subst body. rewrite form_task_of_create in Hcr by done.
    injection Hcr as <-. split; [done|]. apply lookup_insert_eq.
Qed.

Lemma X12_task_form_to_server_witness :
  (TasksRoute.POST Sample_create.e1
     (BoardDetailRequests.create_body "b1"
        (CreateTaskForm.mkSubmission "Write copy" None (Some "high") None None))
     Sample_create.w1).1
  = NextResponse_json
      (task_body
         (mkTask "t1" "Write copy" None "todo" (Some "high") None None 2000
            2000 "b1" 0)) 201.
Proof.
  apply (proj2 (X12_task_form_to_server
                  (CreateTaskForm.mkFormState " Write copy" "" "high" " " "")
                  "b1" Sample_create.e1 Sample_create.w1 Sample.launch)
           (CreateTaskForm.mkSubmission "Write copy" None (Some "high") None
              None)).
  - vm_compute. reflexivity.
  - discriminate.
  - vm_compute. reflexivity.
  - right. apply (bool_decide_unpack _). vm_compute. exact I.
  - vm_compute. reflexivity.
  - intros H. by destruct H.
Defined.

(** ** The board detail page *)

(** X13: the three columns together show exactly the tasks whose status is
    one of the three, each once; a task with any other status is in no
    column, and the columns show every task exactly when every status is
    one of the three. *)
Theorem X13_columns (tasks : list Task) :
  let shown := (BoardDetailRequests.todoTasks tasks
                ++ BoardDetailRequests.inProgressTasks tasks
                ++ BoardDetailRequests.doneTasks tasks)%list in
  shown ≡ₚ filter (λ t, task_status t ∈ validStatuses) tasks
  ∧ (∀ t, t ∈ tasks → task_status t ∉ validStatuses → t ∉ shown)
  ∧ (length shown = length tasks
     ↔ Forall (λ t, task_status t ∈ validStatuses) tasks).
Proof.
  intros shown.
  assert (Hperm : shown ≡ₚ filter (λ t, task_status t ∈ validStatuses) tasks).
  { subst shown. unfold BoardDetailRequests.todoTasks,
      BoardDetailRequests.inProgressTasks, BoardDetailRequests.doneTasks.
    induction tasks as [|t l IH]; [done|].
    rewrite !filter_cons. unfold validStatuses in *.
    destruct (decide (task_status t = "todo")) as [E1|E1];
      destruct (decide (task_status t = "in_progress")) as [E2|E2];
      destruct (decide (task_status t = "done")) as [E3|E3];
      try congruence.
    - rewrite decide_True by (rewrite E1; set_solver).
      simpl. by rewrite IH.
    - rewrite decide_True by (rewrite E2; set_solver).
      rewrite <- app_comm_cons, <- Permutation_middle. by rewrite IH.
    - rewrite decide_True by (rewrite E3; set_solver).
      rewrite app_assoc, <- Permutation_middle, <- app_assoc. by rewrite IH.
    - rewrite decide_False; [done|]. intros Hin.
      repeat (apply elem_of_cons in Hin as [?|Hin]; [congruence|]).
      by apply elem_of_nil in Hin. }
  split; [done|]. split.
  - intros t _ Hbad Hin. rewrite Hperm in Hin.
    apply list_elem_of_filter in Hin as [Hok _]. done.
  - rewrite Hperm. clear. induction tasks as [|t l IH]; [done|].
    rewrite filter_cons, Forall_cons. case_decide; simpl.
    + rewrite <- IH. split; [intros ?; split; [done|lia]|]. intros [_ ?]. lia.
    + pose proof (length_filter (λ t, task_status t ∈ validStatuses) l).
      split; [lia|]. by intros [? _].
Qed.

Lemma filter_all {A} (P : A → Prop) `{∀ x, Decision (P x)} (l : list A) :
  (∀ x, x ∈ l → P x) → filter P l = l.
Proof.
  induction l as [|a l IH]; intros Hall; [done|].
  rewrite filter_cons_True by (apply Hall; left).
  rewrite IH; [done|]. intros x Hx. apply Hall. by right.
Qed.

(** X14: when the deletion of a listed task fails, the page puts the task
    back at the end of the list: for an id other than the empty string,
    the list holds the same tasks as before, the task is now last, and
    the list is the one before the deletion exactly when the task was
    last already.  Deleting an id that is not listed changes nothing, and
    neither does the empty string as the id, for which the handler
    returns at once. *)
Theorem X14_failed_delete (tasks : list Task) (id : string) :
  NoDup (task_id <$> tasks) →
  let after := BoardDetailPage.handleDeleteConfirm tasks (Some id)
                 fetch_failed in
  (id ≠ "" →
   ∀ t, t ∈ tasks → task_id t = id →
        after ≡ₚ tasks
        ∧ last after = Some t
        ∧ (after = tasks ↔ last tasks = Some t))
  ∧ ((∀ t, t ∈ tasks → task_id t ≠ id) → after = tasks)
  ∧ (id = "" → after = tasks)
  ∧ (id = "" →
     BoardDetailPage.handleDeleteConfirm tasks (Some id) (fetch_ok ())
     = tasks).
Proof.
  intros Hnd after. subst after. unfold BoardDetailPage.handleDeleteConfirm.
  split; [|split; [|split]].
  - intros Hne t Hin Hid.
    assert (Ht : truthy (JStr id) = true).
    { simpl. apply negb_true_iff. by apply String.eqb_neq. }
    rewrite Ht. simpl.
    destruct (List.find _ tasks) as [t0|] eqn:Hf.
    2: { eapply find_none in Hf; [|by apply list_elem_of_In].
         by apply bool_decide_eq_false in Hf. }
    apply find_some in Hf as [Hin0 Hid0].
    apply bool_decide_eq_true in Hid0. apply list_elem_of_In in Hin0.
    assert (t0 = t) as -> by (eapply NoDup_fmap_eq; eauto; congruence).
    clear Hin0 Hid0.
    apply list_elem_of_split in Hin as (l1 & l2 & ->).
    rewrite fmap_app, fmap_cons in Hnd.
    apply NoDup_app in Hnd as (_ & Hl1 & Hl2).
    apply NoDup_cons in Hl2 as [Hl2 _].
    assert (H1 : filter (λ x, task_id x ≠ id) l1 = l1).
    { apply filter_all. intros x Hx Hxid. apply (Hl1 (task_id x)).
      - by apply list_elem_of_fmap_2.
      - rewrite Hxid, <- Hid. left. }
    assert (H2 : filter (λ x, task_id x ≠ id) l2 = l2).
    { apply filter_all. intros x Hx Hxid. apply Hl2.
      rewrite Hid, <- Hxid. by apply list_elem_of_fmap_2. }
    rewrite filter_app, filter_cons_False, H1, H2 by (by intros H; apply H).
    split; [|split].
    + rewrite <- app_assoc. apply Permutation_app_head.
      symmetry. apply Permutation_cons_append.
    + apply last_snoc.
    + rewrite last_app_cons. split.
      * intros Heq. rewrite <- app_assoc in Heq.
        apply app_inv_head in Heq. rewrite <- Heq. apply last_snoc.
      * destruct l2 as [|x l2]; [by rewrite app_nil_r|].
        rewrite last_cons_cons. intros Hlast. exfalso. apply Hl2.
        rewrite Hid. apply list_elem_of_fmap. exists t. split; [done|].
        by apply last_Some_elem_of.
  - intros Hno. destruct (negb (truthy (JStr id))); [done|].
    destruct (List.find _ tasks) as [t0|] eqn:Hf; [|done].
    apply find_some in Hf as [Hin0 Hid0].
    apply bool_decide_eq_true in Hid0. apply list_elem_of_In in Hin0.
    by destruct (Hno t0 Hin0).
  - by intros ->.
  - by intros ->.
Qed.

Lemma X14_failed_delete_witness :
  BoardDetailPage.handleDeleteConfirm [Sample.write_copy; Sample.ship_it]
    (Some "t2") fetch_failed
  = [Sample.write_copy; Sample.ship_it].
Proof.
  destruct (X14_failed_delete [Sample.write_copy; Sample.ship_it] "t2")
    as [H _].
  { apply (bool_decide_unpack _). vm_compute. exact I. }
  destruct (H ltac:(discriminate) Sample.ship_it) as (_ & _ & Heq).
  - apply (bool_decide_unpack _). vm_compute. exact I.
  - reflexivity.
  - apply Heq. reflexivity.
Defined.

Lemma with_status_id (t : Task) (s : string) : task_id (with_status t s) = task_id t.
Proof. done. Qed.

(** X15: a status change, confirmed or rolled back, neither adds, removes
    nor moves a task: the ids stay in their places, every task of another
    id stays as it is, and on confirmation the task of that id is the one
    the server answered with. *)
Theorem X15_status_change_in_place (tasks : list Task)
    (taskId newStatus : string) (r : Fetched Task) :
  (∀ u, r = fetch_ok u → task_id u = taskId) →
  let after := BoardDetailPage.handleStatusChange tasks taskId newStatus r in
  task_id <$> after = task_id <$> tasks
  ∧ (∀ i t, tasks !! i = Some t → task_id t ≠ taskId → after !! i = Some t)
  ∧ (∀ u i t,
       r = fetch_ok u → tasks !! i = Some t → task_id t = taskId →
       after !! i = Some u).
Proof.
  intros Hr after. subst after. unfold BoardDetailPage.handleStatusChange.
  destruct (List.find _ tasks) as [task|] eqn:Hf.
  - destruct r as [u|].
    + specialize (Hr u eq_refl).
      split; [|split].
      * rewrite <- !list_fmap_compose. apply list_fmap_ext.
        intros i t _. simpl. destruct (decide (task_id t = taskId)) as [E|E].
        -- rewrite decide_True by done. congruence.
        -- by rewrite decide_False.
      * intros i t Ht Hne. rewrite !list_lookup_fmap, Ht. simpl.
        rewrite (decide_False (P := task_id t = taskId)) by done.
        by rewrite decide_False.
      * intros u' i t [= <-] Ht E. rewrite !list_lookup_fmap, Ht. simpl.
        rewrite (decide_True (P := task_id t = taskId)) by done.
        by rewrite decide_True.
    + split; [|split].
      * rewrite <- !list_fmap_compose. apply list_fmap_ext.
        intros i t _. simpl. destruct (decide (task_id t = taskId)) as [E|E].
        -- by rewrite decide_True.
        -- by rewrite decide_False.
      * intros i t Ht Hne. rewrite !list_lookup_fmap, Ht. simpl.
        rewrite (decide_False (P := task_id t = taskId)) by done.
        by rewrite decide_False.
      * intros u' i t Hu. discriminate Hu.
  - split; [done|]. split; [done|]. intros u i t _ Ht E. exfalso.
    eapply find_none in Hf.
    + apply bool_decide_eq_false in Hf. by apply Hf.
    + apply list_elem_of_In. by eapply list_elem_of_lookup_2.
Qed.

Lemma X15_status_change_in_place_witness :
  task_id <$> BoardDetailPage.handleStatusChange
                [Sample.write_copy; Sample.ship_it] "t1" "done"
                (fetch_ok (Sample.write_copy_with "done"))
  = ["t1"; "t2"].
Proof.
  apply (X15_status_change_in_place [Sample.write_copy; Sample.ship_it] "t1"
           "done" (fetch_ok (Sample.write_copy_with "done"))).
  intros u [= <-]. reflexivity.
Defined.

(** X16: when the temporary id is in use nowhere else in the list, a
    confirmed creation leaves the list as it was with the server's task
    at the end, in the place of the placeholder, and a failed one leaves
    the list as it was. *)
Theorem X16_create_settles (tasks : list Task) (optimisticTask : Task)
    (r : Fetched Task) :
  Forall (λ t, task_id t ≠ task_id optimisticTask) tasks →
  BoardDetailPage.handleCreateTask tasks optimisticTask r
  = match r with
    | fetch_ok newTask => (tasks ++ [newTask])%list
    | fetch_failed => tasks
    end.
Proof.
  intros Hall. destruct r as [newTask|]; [|by apply handleCreateTask_rollback].
  unfold BoardDetailPage.handleCreateTask. rewrite fmap_app. simpl.
  rewrite decide_True by done. f_equal.
  rewrite <- (list_fmap_id tasks) at 2. apply list_fmap_ext.
  intros i t Ht. simpl. rewrite decide_False; [done|].
  rewrite Forall_forall in Hall. apply Hall. by eapply list_elem_of_lookup_2.
Qed.

Lemma X16_create_settles_witness :
  BoardDetailPage.handleCreateTask [Sample.write_copy]
    (mkTask "temp-1" "Ship it" None "todo" None None None 1 1 "b1" 0)
    (fetch_ok Sample.ship_it)
  = [Sample.write_copy; Sample.ship_it].
Proof.
  apply (X16_create_settles [Sample.write_copy]
           (mkTask "temp-1" "Ship it" None "todo" None None None 1 1 "b1" 0)
           (fetch_ok Sample.ship_it)).
  apply (bool_decide_unpack _). vm_compute. exact I.
Defined.

(** ** Reading a board with its tasks *)

(** X17: the read of a board writes nothing and makes one store call; it
    answers 404 exactly when the board does not exist, and otherwise with
    the board and exactly the tasks whose boardId is the board's id. *)
Theorem X17_board_with_tasks (q : QueryEngine) (id : string) (w : World) :
  include_sound q →
  let r := BoardIdRead.GET q id w in
  r.2 = logged [board_findUnique_call (JStr id)] w
  ∧ (r.1 = plain_json (NextResponse_json (error_body "Board not found") 404)
     ↔ boards (db w) !! id = None)
  ∧ (∀ b, boards (db w) !! id = Some b →
          ∃ ts,
            r.1 = board_json (mkBoardWithTasks b ts) 200
            ∧ ts ≡ₚ filter (λ t, task_boardId t = id) (rows (tasks (db w)))
            ∧ ∀ t, t ∈ ts
                   ↔ task_boardId t = id ∧ ∃ k, tasks (db w) !! k = Some t).
Proof.
  intros Hq r. subst r.
  unfold BoardIdRead.GET, BoardIdRead.board_findUnique_include. run.
  destruct (boards (db w) !! id) as [b|] eqn:Hl; simpl.
  - split; [done|]. split; [done|]. intros b' [= <-].
    exists (q (db w) id). split; [done|]. split; [apply Hq|].
    intros t. by rewrite (Hq (db w) id), list_elem_of_filter, rows_elem_of.
  - split; [done|]. split; [done|]. done.
Qed.

Lemma scan_forward_include_sound : include_sound scan_forward.
Proof. intros d b. apply scan_forward_sound. Qed.

Lemma X17_board_with_tasks_witness :
  (BoardIdRead.GET scan_forward "b1" Sample_update.w2).2
  = logged [board_findUnique_call (JStr "b1")] Sample_update.w2.
Proof.
  apply (X17_board_with_tasks scan_forward "b1" Sample_update.w2
           scan_forward_include_sound).
Defined.

(** X18: a failed status change leaves the list exactly as it was before
    the change, when no two tasks of the list share an id; and a status
    change for an id that is not in the list changes nothing, whatever the
    request came to. *)
Theorem X18_failed_status_change (tasks : list Task)
    (taskId newStatus : string) :
  (NoDup (task_id <$> tasks) →
   BoardDetailPage.handleStatusChange tasks taskId newStatus fetch_failed
   = tasks)
  ∧ ((∀ t, t ∈ tasks → task_id t ≠ taskId) →
     ∀ r, BoardDetailPage.handleStatusChange tasks taskId newStatus r = tasks).
Proof.
  split; [apply handleStatusChange_rollback|].
  intros Hno r. unfold BoardDetailPage.handleStatusChange.
  destruct (List.find _ tasks) as [t0|] eqn:Hf; [|done].
  apply find_some in Hf as [Hin0 Hid0].
  apply bool_decide_eq_true in Hid0. apply list_elem_of_In in Hin0.
  by destruct (Hno t0 Hin0).
Qed.

Lemma X18_failed_status_change_witness :
  BoardDetailPage.handleStatusChange [Sample.write_copy; Sample.ship_it] "t2"
    "done" fetch_failed
  = [Sample.write_copy; Sample.ship_it].
Proof.
  apply (proj1 (X18_failed_status_change [Sample.write_copy; Sample.ship_it]
                  "t2" "done")).
  apply (bool_decide_unpack _). vm_compute. exact I.
Defined.

(** ** From the edit form to the server *)

Lemma column_or_null (old : option string) (o : option string) :
  Prisma.column old (provided (or_null o)) Prisma.as_String_opt_set
  = Some (o ≫= or_undefined).
Proof.
  destruct o as [s|]; simpl; [|done]. unfold or_undefined.
  by destruct (String.eqb s "").
Qed.

Lemma column_json_opt (old : string) (o : option string) :
  Prisma.column old (provided (json_opt o)) Prisma.as_String_set
  = Some (default old o).
Proof. by destruct o. Qed.

Lemma column_due_or_null (e : Env) (old : option Z) (o : option string) :
  (∀ d, o = Some d → d ≠ "" → is_Some (env_newDate e (JStr d))) →
  Prisma.column old
    (if is_undefined (or_null o) then None
     else Some (date_or_null e (or_null o)))
    Prisma.as_DateTime_opt
  = Some (o ≫= λ d, if String.eqb d "" then None else env_newDate e (JStr d)).
Proof.
  intros Hd. destruct o as [d|]; simpl; [|done].
  destruct (String.eqb_spec d "") as [E|E]; simpl; [done|].
  unfold date_or_null. simpl.
  destruct (String.eqb_spec d ""); [done|]. simpl.
  destruct (Hd d eq_refl E) as [z ->]. done.
Qed.

(** X19: saving the edit form with a blank title sends nothing; otherwise
    it patches the task being edited, and for an existing task, a status
    and a priority among the allowed ones and a readable date the patch
    succeeds and overwrites every editable field: the title with the
    trimmed one, the description, the assignee, the priority and the due
    date with what the form holds, or with nothing where the form is
    empty, the status only when the form has one. *)
Theorem X19_edit_form_to_server (f : BoardDetailRequests.EditTaskData)
    (editing t : Task) (e : Env) (w : World) :
  (trim (BoardDetailRequests.edit_title f) = "" →
   BoardDetailRequests.edit_request (Some editing) f = None)
  ∧ (trim (BoardDetailRequests.edit_title f) ≠ "" →
     tasks (db w) !! task_id editing = Some t →
     (∀ s, BoardDetailRequests.edit_status f = Some s → s ∈ validStatuses) →
     (∀ p, BoardDetailRequests.edit_priority f = Some p →
           p = "" ∨ p ∈ validPriorities) →
     (∀ d, BoardDetailRequests.edit_dueDate f = Some d → d ≠ "" →
           is_Some (env_newDate e (JStr d))) →
     ∃ t',
       BoardDetailRequests.edit_request (Some editing) f
       = Some (task_id editing, BoardDetailRequests.edit_body f)
       ∧ (TaskIdRoute.PATCH e (task_id editing)
            (BoardDetailRequests.edit_body f) w).1
         = NextResponse_json (task_body t') 200
       ∧ task_title t' = trim (BoardDetailRequests.edit_title f)
       ∧ task_description t'
         = (BoardDetailRequests.edit_description f
            ≫= λ s, or_undefined (trim s))
       ∧ task_status t'
         = default (task_status t) (BoardDetailRequests.edit_status f)
       ∧ task_priority t'
         = (BoardDetailRequests.edit_priority f ≫= or_undefined)
       ∧ task_assignedTo t'
         = (BoardDetailRequests.edit_assignedTo f
            ≫= λ s, or_undefined (trim s))
       ∧ task_dueDate t'
         = (BoardDetailRequests.edit_dueDate f
            ≫= λ d, if String.eqb d "" then None
                    else env_newDate e (JStr d))
       ∧ task_id t' = task_id t
       ∧ task_boardId t' = task_boardId t
       ∧ task_createdAt t' = task_createdAt t
       ∧ task_updatedAt t' = env_now e).
Proof.
  unfold BoardDetailRequests.edit_request. split.
  { intros H. by rewrite H. }
  intros Hne Hl Hst Hpr Hdu.
  destruct (String.eqb_spec (trim (BoardDetailRequests.edit_title f)) "");
    [done|].
  set (body := BoardDetailRequests.edit_body f).
  assert (Hu : Prisma.task_of_update (env_now e) t
                 (TaskIdRoute.updateData e body)
               = Some
                   (mkTask (task_id t)
                      (trim (BoardDetailRequests.edit_title f))
                      ((trim <$> BoardDetailRequests.edit_description f)
                       ≫= or_undefined)
                      (default (task_status t)
                         (BoardDetailRequests.edit_status f))
                      (BoardDetailRequests.edit_priority f ≫= or_undefined)
                      ((trim <$> BoardDetailRequests.edit_assignedTo f)
                       ≫= or_undefined)
                      (BoardDetailRequests.edit_dueDate f
                       ≫= λ d, if String.eqb d "" then None
                               else env_newDate e (JStr d))
                      (task_createdAt t) (env_now e) (task_boardId t)
                      (task_order t))).
  { unfold Prisma.task_of_update, TaskIdRoute.updateData. subst body. simpl.
    rewrite !column_or_null, column_json_opt, column_due_or_null by done.
    done. }
  assert (Hs : status_rejected body = false).
  { unfold status_rejected. subst body. simpl.
    destruct (BoardDetailRequests.edit_status f) as [s|] eqn:E; simpl; [|done].
    by rewrite bool_decide_eq_true_2 by (by apply Hst). }
  assert (Hp : priority_rejected body = false).
  { unfold priority_rejected. subst body. simpl.
    destruct (BoardDetailRequests.edit_priority f) as [p|] eqn:E; simpl;
      [|done].
    destruct (String.eqb_spec p "") as [|Ep]; simpl; [done|].
    destruct (Hpr p eq_refl) as [?|Hin]; [done|].
    by rewrite bool_decide_eq_true_2. }
  eexists. split; [done|].
  destruct (PATCH_task_cases e (task_id editing) body w)
    as [Hn|t0 Hl0 Hr|t0 Hl0 _ Hr|t0 Hl0 _ _ Hu0|t0 t' Hl0 _ _ Hu0];
    try congruence; assert (t0 = t) as -> by congruence.
  rewrite Hu in Hu0. injection Hu0 as <-. simpl.
  split; [done|]. split; [done|].
  split; [by destruct (BoardDetailRequests.edit_description f)|].
  split; [done|]. split; [done|].
  split; [by destruct (BoardDetailRequests.edit_assignedTo f)|].
  done.
Qed.

Lemma X19_edit_form_to_server_witness :
  ∃ t',
    (TaskIdRoute.PATCH Sample_update.e2 "t1"
       (BoardDetailRequests.edit_body
          (BoardDetailRequests.mkEditTaskData " Write copy " (Some " ")
             (Some "high") None (Some "") (Some "done")))
       Sample_update.w2).1
    = NextResponse_json (task_body t') 200
    ∧ task_title t' = "Write copy"
    ∧ task_description t' = None.
Proof.
  destruct (proj2 (X19_edit_form_to_server
                     (BoardDetailRequests.mkEditTaskData " Write copy "
                        (Some " ") (Some "high") None (Some "") (Some "done"))
                     Sample.write_copy Sample.write_copy Sample_update.e2
                     Sample_update.w2))
    as (t' & _ & H1 & H2 & H3 & _).
  - discriminate.
  - vm_compute. reflexivity.
  - intros s [= <-]. apply (bool_decide_unpack _). vm_compute. exact I.
  - intros p [= <-]. right. apply (bool_decide_unpack _). vm_compute. exact I.
  - intros d [= <-] H. by destruct H.
  - exists t'. split; [exact H1|]. split; [exact H2|exact H3].
Defined.

(** ** Instances of the statements that hold for every request *)

Lemma X4_errors_write_nothing_witness :
  db (serve scan_forward (TaskPATCH Sample_update.e2 "ghost"
                            Sample_update.body_in_progress)
        Sample_update.w2).2
  = db Sample_update.w2.
Proof.
  apply (proj1 (proj2 (X4_errors_write_nothing scan_forward
                         (TaskPATCH Sample_update.e2 "ghost"
                            Sample_update.body_in_progress)
                         Sample_update.w2))).
  vm_compute. discriminate.
Defined.

Lemma X5_store_calls_witness :
  ∃ rd wr,
    calls (serve scan_forward (TaskDELETE "t1") Sample_update.w2).2
    = (calls Sample_update.w2 ++ rd ++ wr)%list
    ∧ (length rd ≤ 1)%nat
    ∧ (length wr ≤ 1)%nat.
Proof.
  destruct (X5_store_calls scan_forward (TaskDELETE "t1") Sample_update.w2)
    as (rd & wr & H1 & H2 & H3 & _).
  exists rd, wr. split; [exact H1|]. split; [exact H2|exact H3].
Defined.

Lemma X10_board_post_outcomes_witness :
  ∃ b, (BoardsRoute.POST Sample_board.e0 Sample_board.body
          (fresh_world empty_db)).1
       = NextResponse_json (board_body b) 201.
Proof.
  apply (proj2 (proj2 (proj2 (X10_board_post_outcomes Sample_board.e0
                                Sample_board.body (fresh_world empty_db))))).
  - intros s [= <-]. apply (bool_decide_unpack _). vm_compute. exact I.
  - intros s H. discriminate H.
  - intros s [= <-]. apply (bool_decide_unpack _). vm_compute. exact I.
  - split; [exists "  Launch "; split; [reflexivity|]; vm_compute; discriminate|].
    split; [by left|].
    split; [right; right; by exists "#6366f1"|].
    vm_compute. reflexivity.
Defined.

Lemma X13_columns_witness :
  Sample.write_copy_with ""
  ∉ (BoardDetailRequests.todoTasks [Sample.write_copy_with ""; Sample.ship_it]
     ++ BoardDetailRequests.inProgressTasks
          [Sample.write_copy_with ""; Sample.ship_it]
     ++ BoardDetailRequests.doneTasks
          [Sample.write_copy_with ""; Sample.ship_it])%list.
Proof.
  apply (proj1 (proj2 (X13_columns [Sample.write_copy_with ""; Sample.ship_it]))).
  - apply (bool_decide_unpack _). vm_compute. exact I.
  - apply (bool_decide_unpack _). vm_compute. exact I.
Defined.
